(** * react-jwt-fast: the client-side authentication session lifecycle

    A shallow embedding of the React front end of the repository:
    - [src/types/index.ts]               (module [Types]),
    - [src/context/AuthContext.tsx]      (module [AuthContext]),
    - [src/components/ProtectedRoute.tsx] (module [ProtectedRoute]),
    - [src/pages/Login.tsx]              (module [LoginPage]),
    - [src/pages/Register.tsx]           (module [RegisterPage]).

    The code is effectful: it reads and writes [localStorage], sends HTTP
    requests through axios, sets React state and throws.  It is embedded in
    a state-and-exception monad; every effect is also appended to a history,
    so that statements about order and about what did not happen can be
    made.  [console.log] calls leave no trace in the model.

    An [async] function is run to completion: the model interleaves no two
    operations of the provider. *)

From Stdlib Require Import ZArith List Bool Lia.
From stdpp Require Import base option strings gmap.

Local Open Scope string_scope.
Local Open Scope list_scope.

(** ** JavaScript values *)

Module Js.

(** Truthiness of a string: the empty string is the only falsy one. *)
Definition truthy (s : string) : bool :=
  match s with
  | EmptyString => false
  | String _ _ => true
  end.

(** Truthiness of a [string | null]. *)
Definition truthy_opt (o : option string) : bool :=
  match o with
  | Some s => truthy s
  | None => false
  end.

(** [a || b] where [a : string | undefined] and [b : string]. *)
Definition or_else (a : option string) (b : string) : string :=
  match a with
  | Some s => if truthy s then s else b
  | None => b
  end.

(** [a !== b] on strings. *)
Definition strict_neq (a b : string) : bool :=
  negb (String.eqb a b).

End Js.

(** ** src/types/index.ts *)

Module Types.

Record User := mkUser
  { id : Z; username : string; email : string }.

Record LoginResponse := mkLoginResponse
  { access_token : string; token_type : string }.

Record RegisterResponse := mkRegisterResponse
  { reg_id : Z; reg_username : string; reg_email : string }.

Record ApiErrorResponse := mkApiErrorResponse
  { detail : string }.

(** The [response?] member of an [AxiosError]. *)
Record ErrorBody := mkErrorBody
  { data : option ApiErrorResponse; status : Z }.

Record AxiosError := mkAxiosError
  { response : option ErrorBody; message : string }.

(** [error.response?.data?.detail] *)
Definition response_data_detail (e : AxiosError) : option string :=
  match response e with
  | Some r =>
      match data r with
      | Some d => Some (detail d)
      | None => None
      end
  | None => None
  end.

End Types.

(** ** Effects *)

Module Effect.

Import Types.

(** What axios sends. *)
Inductive Request : Type :=
| Get (url : string) (authorization : string)
| PostForm (url : string) (form_username form_password : string)
| PostJson (url : string) (json_username json_email json_password : string).

(** Everything an operation does to the outside of its own stack frame. *)
Inductive Event : Type :=
| LsGetItem (key : string)
| LsSetItem (key value : string)
| LsRemoveItem (key : string)
| Http (req : Request)
| SetUser (u : option User)
| SetToken (t : option string)
| SetIsLoading (b : bool)
| Navigate (to : string).

(** The back end as the client sees it.  A reply may depend on the
    request and on the number of requests the client has sent before
    ([clock]): tokens expire, users get registered, connections drop. *)
Record Network := mkNetwork
  { get_users_me : nat -> string -> AxiosError + User;
    post_login : nat -> string -> string -> AxiosError + LoginResponse;
    post_register :
      nat -> string -> string -> string -> AxiosError + RegisterResponse }.

Inductive Outcome (A : Type) : Type :=
| Returned (a : A)
| Thrown (e : AxiosError).
Arguments Returned {A} a.
Arguments Thrown {A} e.

(** State and exception: a thrown error keeps the state reached so far. *)
Definition M (S A : Type) : Type := S -> Outcome A * S.

Definition ret {S A} (a : A) : M S A := fun s => (Returned a, s).

Definition throw {S A} (e : AxiosError) : M S A := fun s => (Thrown e, s).

Definition bind {S A B} (m : M S A) (k : A -> M S B) : M S B :=
  fun s =>
    match m s with
    | (Returned a, s') => k a s'
    | (Thrown e, s') => (Thrown e, s')
    end.

(** [try { body } catch (error) { handler }] *)
Definition try_catch {S A} (body : M S A) (handler : AxiosError -> M S A)
  : M S A :=
  fun s =>
    match body s with
    | (Returned a, s') => (Returned a, s')
    | (Thrown e, s') => handler e s'
    end.

(** [try { body } finally { fin }]: [fin] always runs; the outcome is the
    one of [body] unless [fin] throws itself. *)
Definition try_finally {S A} (body : M S A) (fin : M S unit) : M S A :=
  fun s =>
    match body s with
    | (r, s') =>
        match fin s' with
        | (Returned _, s'') => (r, s'')
        | (Thrown e, s'') => (Thrown e, s'')
        end
    end.

Definition outcome {S A} (m : M S A) (s : S) : Outcome A := fst (m s).
Definition exec {S A} (m : M S A) (s : S) : S := snd (m s).

Definition returns {A} (o : Outcome A) : Prop :=
  match o with
  | Returned _ => True
  | Thrown _ => False
  end.

End Effect.

(** The monad operations in stdpp's notation: [x ← m; k] and [m ;; k]. *)
#[global] Instance M_ret {S} : MRet (Effect.M S) := @Effect.ret S.
#[global] Instance M_bind {S} : MBind (Effect.M S) :=
  fun A B k m => Effect.bind m k.

(** ** src/context/AuthContext.tsx *)

Module AuthContext.

Import Types Effect.

(** The three [useState] cells of [AuthProvider]. *)
Record AuthState := mkAuthState
  { user : option User; token : option string; isLoading : bool }.

(** The provider's state together with the browser around it:
    [localStorage], the number of HTTP requests sent so far and the
    history of effects. *)
Record World := mkWorld
  { auth : AuthState;
    localStorage : gmap string string;
    clock : nat;
    history : list Event }.

Definition log (ev : Event) (w : World) : World :=
  mkWorld (auth w) (localStorage w) (clock w) (history w ++ [ev]).

Definition with_auth (a : AuthState) (w : World) : World :=
  mkWorld a (localStorage w) (clock w) (history w).

Definition with_localStorage (ls : gmap string string) (w : World) : World :=
  mkWorld (auth w) ls (clock w) (history w).

Definition tick (w : World) : World :=
  mkWorld (auth w) (localStorage w) (S (clock w)) (history w).

(** *** React state setters *)

Definition setUser (u : option User) : M World unit :=
  fun w =>
    (Returned tt,
     log (SetUser u)
       (with_auth (mkAuthState u (token (auth w)) (isLoading (auth w))) w)).

Definition setToken (t : option string) : M World unit :=
  fun w =>
    (Returned tt,
     log (SetToken t)
       (with_auth (mkAuthState (user (auth w)) t (isLoading (auth w))) w)).

Definition setIsLoading (b : bool) : M World unit :=
  fun w =>
    (Returned tt,
     log (SetIsLoading b)
       (with_auth (mkAuthState (user (auth w)) (token (auth w)) b) w)).

(** *** localStorage *)

Definition localStorage_getItem (key : string) : M World (option string) :=
  fun w => (Returned (localStorage w !! key), log (LsGetItem key) w).

Definition localStorage_setItem (key value : string) : M World unit :=
  fun w =>
    (Returned tt,
     log (LsSetItem key value)
       (with_localStorage (<[key := value]> (localStorage w)) w)).

Definition localStorage_removeItem (key : string) : M World unit :=
  fun w =>
    (Returned tt,
     log (LsRemoveItem key)
       (with_localStorage (delete key (localStorage w)) w)).

(** *** axios *)

Definition bearer (authToken : string) : string := "Bearer " +:+ authToken.

Definition url_users_me : string := "http://localhost:8000/users/me".
Definition url_login : string := "http://localhost:8000/login".
Definition url_register : string := "http://localhost:8000/register".

(** [await request]: the request is sent, the clock advances, and the
    promise either resolves with [response.data] or rejects. *)
Definition await {A} (req : Request) (reply : nat -> AxiosError + A)
  : M World A :=
  fun w =>
    let w' := tick (log (Http req) w) in
    match reply (clock w) with
    | inl e => (Thrown e, w')
    | inr a => (Returned a, w')
    end.

Section Provider.

Variable net : Network.

(** [axios.get<User>(url, { headers: { Authorization } })] *)
Definition axios_get_users_me (authToken : string) : M World User :=
  await (Get url_users_me (bearer authToken))
        (fun now => get_users_me net now (bearer authToken)).

(** [axios.post<LoginResponse>(url, formData)] *)
Definition axios_post_login (username password : string)
  : M World LoginResponse :=
  await (PostForm url_login username password)
        (fun now => post_login net now username password).

(** [axios.post<RegisterResponse>(url, { username, email, password })] *)
Definition axios_post_register (username email password : string)
  : M World RegisterResponse :=
  await (PostJson url_register username email password)
        (fun now => post_register net now username email password).

(** *** The provider's operations *)

Definition fetchUserData (authToken : string) : M World unit :=
  try_finally
    (try_catch
       (response_data ← axios_get_users_me authToken;
        setUser (Some response_data))
       (fun error =>
          localStorage_removeItem "access_token";;
          setToken None))
    (setIsLoading false).

(** The body of the mount effect, [useEffect(..., [])]. *)
Definition initialize : M World unit :=
  storedToken ← localStorage_getItem "access_token";
  match storedToken with
  | Some t =>
      if Js.truthy t
      then setToken (Some t);; fetchUserData t
      else setIsLoading false
  | None => setIsLoading false
  end.

Definition login (username password : string) : M World unit :=
  try_catch
    (response_data ← axios_post_login username password;
     localStorage_setItem "access_token" (access_token response_data);;
     setToken (Some (access_token response_data));;
     fetchUserData (access_token response_data))
    (fun error => throw error).

Definition register (username email password : string) : M World unit :=
  try_catch
    (response_data ← axios_post_register username email password;
     login username password)
    (fun error => throw error).

Definition logout : M World unit :=
  localStorage_removeItem "access_token";;
  setUser None;;
  setToken None.

End Provider.

(** The provider as first rendered: the initial values of the three
    [useState] calls, over whatever the browser has persisted. *)
Definition mount (persisted : gmap string string) : World :=
  mkWorld (mkAuthState None None true) persisted 0 [].

End AuthContext.

(** ** src/components/ProtectedRoute.tsx *)

Module ProtectedRoute.

Import Types AuthContext.

(** What the component returns. *)
Inductive Rendered : Type :=
| LoadingPlaceholder
| NavigateTo (to : string) (replace : bool)
| Children.

(** [!user]: an object is truthy, [null] is not. *)
Definition not_user (u : option User) : bool :=
  match u with
  | Some _ => false
  | None => true
  end.

(** [!token] *)
Definition not_token (t : option string) : bool :=
  negb (Js.truthy_opt t).

Definition ProtectedRoute (s : AuthState) : Rendered :=
  if isLoading s then LoadingPlaceholder
  else if not_user (user s) || not_token (token s)
       then NavigateTo "/login" true
       else Children.

End ProtectedRoute.

(** ** What the two form pages share

    [Login] and [Register] each hold an [error] and an [isLoading] cell of
    their own, obtain the provider's operations from [useAuth()] and
    [navigate] from the router. *)

Module Page.

Import Types Effect AuthContext.

Record FormState := mkFormState
  { error : string; isLoading : bool }.

(** A page's own state, over the world of the provider it is rendered in. *)
Record State := mkState
  { form : FormState; world : World }.

Definition setError (msg : string) : M State unit :=
  fun s => (Returned tt, mkState (mkFormState msg (isLoading (form s))) (world s)).

Definition setIsLoading (b : bool) : M State unit :=
  fun s => (Returned tt, mkState (mkFormState (error (form s)) b) (world s)).

(** Run an operation of the provider from within a page. *)
Definition in_world {A} (m : M World A) : M State A :=
  fun s =>
    match m (world s) with
    | (r, w') => (r, mkState (form s) w')
    end.

(** [navigate(to)] of [useNavigate()]. *)
Definition navigate (to : string) : M State unit :=
  in_world (fun w => (Returned tt, log (Navigate to) w)).

End Page.

(** ** src/pages/Login.tsx *)

Module LoginPage.

Import Types Effect AuthContext Page.

Section Login.

(** [const { login } = useAuth()] *)
Variable login : string -> string -> M World unit.

Definition handleSubmit (username password : string) : M State unit :=
  setError "";;
  setIsLoading true;;
  try_finally
    (try_catch
       (in_world (login username password);;
        navigate "/dashboard")
       (fun err =>
          setError (Js.or_else (response_data_detail err)
                               "Login failed. Please try again.")))
    (setIsLoading false).

End Login.

End LoginPage.

(** ** src/pages/Register.tsx *)

Module RegisterPage.

Import Types Effect AuthContext Page.

Section Register.

(** [const { register } = useAuth()] *)
Variable register : string -> string -> string -> M World unit.

(** A string is a sequence of UTF-16 code units in the source; here one
    character stands for one code unit, and [String.length] for [.length]. *)
Definition handleSubmit (username email password confirmPassword : string)
  : M State unit :=
  setError "";;
  if Js.strict_neq password confirmPassword
  then setError "Passwords do not match"
  else
    if (String.length password <? 6)%nat
    then setError "Password must be at least 6 characters"
    else
      setIsLoading true;;
      try_finally
        (try_catch
           (in_world (register username email password);;
            navigate "/dashboard")
           (fun err =>
              setError (Js.or_else (response_data_detail err)
                                   "Registration failed. Please try again.")))
        (setIsLoading false).

End Register.

End RegisterPage.

(** ** The session lifecycle as a transition system *)

Module Lifecycle.

Import Types Effect AuthContext.

(** What the provider exposes to its callers, and the mount effect. *)
Inductive Operation : Type :=
| Initialize
| FetchUserData (authToken : string)
| Login (username password : string)
| Register (username email password : string)
| Logout.

Definition run (net : Network) (op : Operation) : M World unit :=
  match op with
  | Initialize => initialize net
  | FetchUserData authToken => fetchUserData net authToken
  | Login username password => login net username password
  | Register username email password => register net username email password
  | Logout => logout
  end.

(** The operations the context value hands to its consumers. *)
Definition exposed (op : Operation) : bool :=
  match op with
  | Login _ _ | Register _ _ _ | Logout => true
  | Initialize | FetchUserData _ => false
  end.

(** The worlds a provider can be in between two operations: it is mounted
    over some persisted storage and its mount effect runs; from then on
    its consumers log in, register and log out in any order. *)
Inductive reachable (net : Network) : World -> Prop :=
| reach_initialize persisted :
    reachable net (exec (initialize net) (mount persisted))
| reach_call w op :
    reachable net w ->
    exposed op = true ->
    reachable net (exec (run net op) w).

(** The part of a world that later operations and the UI can observe. *)
Definition session (w : World) : AuthState * gmap string string :=
  (auth w, localStorage w).

(** Logged out: nothing in memory and nothing persisted. *)
Definition logged_out (w : World) : Prop :=
  user (auth w) = None /\ token (auth w) = None /\
  localStorage w !! "access_token" = None.

(** The storage slot an event touches, if it touches one. *)
Definition storage_key (ev : Event) : option string :=
  match ev with
  | LsGetItem key => Some key
  | LsSetItem key _ => Some key
  | LsRemoveItem key => Some key
  | _ => None
  end.

(** The event is no storage access, or one of slot [key]. *)
Definition touches_only (key : string) (ev : Event) : Prop :=
  match storage_key ev with
  | Some k => k = key
  | None => True
  end.

(** The world once the registration request is out. *)
Definition registration_sent (username email password : string) (w : World)
  : World :=
  tick (log (Http (PostJson url_register username email password)) w).

(** [w'] is [w] some events later, none of which is an access to a
    storage slot other than [key], and the slots other than [key] hold what
    they held. *)
Definition extends (key : string) (w w' : World) : Prop :=
  (exists evs,
     history w' = history w ++ evs /\ Forall (touches_only key) evs) /\
  delete key (localStorage w') = delete key (localStorage w).

(** The operation [m] stays within the storage slot [key]. *)
Definition confined (key : string) {A} (m : M World A) : Prop :=
  forall w, extends key w (exec m w).

(** The history shows a profile request for the token [t] whose reply [u]
    was stored as the user. *)
Definition validated_by (h : list Event) (t : string) (u : User) : Prop :=
  exists h1 h2,
    h = h1 ++ Http (Get url_users_me (bearer t)) :: SetUser (Some u) :: h2.

(** A token in memory is backed by a user: the user is the reply to a
    profile request for that token, and the storage slot holds the token
    as it is. *)
Definition token_backed (w : World) : Prop :=
  forall t,
    token (auth w) = Some t ->
    exists u,
      user (auth w) = Some u /\
      localStorage w !! "access_token" = Some t /\
      validated_by (history w) t u.

(** The requests among the events. *)
Definition requests (evs : list Event) : list Request :=
  omap (fun ev => match ev with Http req => Some req | _ => None end) evs.

End Lifecycle.

(** ** Concrete back ends and states, for the examples *)

Module Scenario.

Import Types Effect AuthContext.

Definition alice : User := mkUser 1 "alice" "alice@example.com".

(** The reply of [GET /users/me] to a token it does not accept. *)
Definition unauthorized : AxiosError :=
  mkAxiosError
    (Some (mkErrorBody
             (Some (mkApiErrorResponse "Could not validate credentials")) 401))
    "Request failed with status code 401".

(** The reply of [POST /login] to bad credentials. *)
Definition bad_credentials : AxiosError :=
  mkAxiosError
    (Some (mkErrorBody
             (Some (mkApiErrorResponse "Incorrect username or password")) 401))
    "Request failed with status code 401".

(** The reply of [POST /register] to a taken name. *)
Definition duplicate_user : AxiosError :=
  mkAxiosError
    (Some (mkErrorBody
             (Some (mkApiErrorResponse "Username or email already registered"))
             400))
    "Request failed with status code 400".

(** A back end that accepts nothing. *)
Definition rejecting : Network :=
  mkNetwork (fun _ _ => inl unauthorized)
            (fun _ _ _ => inl bad_credentials)
            (fun _ _ _ _ => inl duplicate_user).

(** A back end that accepts everything and knows one user. *)
Definition accepting : Network :=
  mkNetwork (fun _ _ => inr alice)
            (fun _ _ _ => inr (mkLoginResponse "jwt-1" "bearer"))
            (fun _ _ _ _ => inr (mkRegisterResponse 1 "alice" "alice@example.com")).

(** A back end that always issues a token but whose profile endpoint
    answers the first two requests only: afterwards a fresh token is
    issued and at once refused. *)
Definition flaky : Network :=
  mkNetwork (fun now _ => if (now <? 2)%nat then inr alice else inl unauthorized)
            (fun now _ _ =>
               inr (mkLoginResponse
                      (if (now <? 2)%nat then "jwt-1" else "jwt-2") "bearer"))
            (fun _ _ _ _ => inl duplicate_user).

(** Someone logged in: the state the first login against [flaky] ends in. *)
Definition logged_in : World :=
  exec (login flaky "alice" "secret") (exec (initialize flaky) (mount ∅)).

(** A guard state with a user and the empty string for a token. *)
Definition empty_token_state : AuthState :=
  mkAuthState (Some alice) (Some "") false.

(** Persistent storage holding the empty string in the token slot. *)
Definition empty_token_storage : gmap string string :=
  {["access_token" := ""]}.

(** Persistent storage holding a token and an unrelated entry. *)
Definition stale_storage : gmap string string :=
  <["theme" := "dark"]> {["access_token" := "expired-token"]}.

End Scenario.

(** ** src/pages/Dashboard.tsx *)

Module Dashboard.

Import Types Effect AuthContext.

(** [navigate(to)] of [useNavigate()]. *)
Definition navigate (to : string) : M World unit :=
  fun w => (Returned tt, log (Navigate to) w).

Section Dashboard.

(** [const { user, token, logout } = useAuth()] *)
Variable logout : M World unit.

Definition handleLogout : M World unit :=
  logout;;
  navigate "/login".

End Dashboard.

(** The text of the token paragraph, [{token?.substring(0, 50)}...]: a
    [null] token renders as nothing, and the three dots always follow. *)
Definition token_preview (token : option string) : string :=
  match token with
  | Some t => String.substring 0 50 t
  | None => ""
  end +:+ "...".

End Dashboard.

(** ** Values of type [unknown]

    What a [catch] clause can receive. Objects are records of own
    properties, in order; [is_error] says whether the object is an
    instance of [Error]. Numbers are the integers and [NaN], which is all
    that truthiness can tell apart; accessors and proxies are left out. *)

Module Dynamic.

#[local] Set Warnings "-register-all".

Inductive Value : Type :=
| Undefined
| Null
| Bool (b : bool)
| Number (z : Z)
| NaN
| BigInt (z : Z)
| Str (s : string)
| Symbol
| Function
| Object (is_error : bool) (props : list (string * Value)).

(** [typeof v] *)
Definition typeof (v : Value) : string :=
  match v with
  | Undefined => "undefined"
  | Null => "object"
  | Bool _ => "boolean"
  | Number _ | NaN => "number"
  | BigInt _ => "bigint"
  | Str _ => "string"
  | Symbol => "symbol"
  | Function => "function"
  | Object _ _ => "object"
  end.

(** Conversion to boolean, as [||] and [if] apply it. *)
Definition truthy (v : Value) : bool :=
  match v with
  | Undefined | Null | NaN => false
  | Bool b => b
  | Number z | BigInt z => negb (z =? 0)%Z
  | Str s => Js.truthy s
  | Symbol | Function | Object _ _ => true
  end.

(** Own property [key] of a property list. *)
Fixpoint own (key : string) (props : list (string * Value)) : option Value :=
  match props with
  | [] => None
  | (k, v) :: rest => if String.eqb k key then Some v else own key rest
  end.

(** [v.key], for [v] neither [null] nor [undefined] and [key] one of
    [response], [data], [detail], [message]: no primitive has such a
    property, and the only inherited one is [Error.prototype.message],
    the empty string. *)
Definition get (v : Value) (key : string) : Value :=
  match v with
  | Object is_error props =>
      match own key props with
      | Some x => x
      | None =>
          if is_error && String.eqb key "message" then Str "" else Undefined
      end
  | _ => Undefined
  end.

(** [v?.key] *)
Definition get_opt (v : Value) (key : string) : Value :=
  match v with
  | Undefined | Null => Undefined
  | _ => get v key
  end.

(** [key in v] for an object [v] and [key] as above. *)
Definition has (key : string) (v : Value) : bool :=
  match v with
  | Object is_error props =>
      match own key props with
      | Some _ => true
      | None => is_error && String.eqb key "message"
      end
  | _ => false
  end.

(** [v instanceof Error] *)
Definition instanceof_Error (v : Value) : bool :=
  match v with
  | Object is_error _ => is_error
  | _ => false
  end.

(** [a || b] *)
Definition or (a b : Value) : Value :=
  if truthy a then a else b.

End Dynamic.

(** ** src/types/index.ts, the functions *)

Module ErrorMessage.

Import Dynamic.

Definition isAxiosError (error : Value) : bool :=
  String.eqb (typeof error) "object" &&
  match error with
  | Null => false
  | _ =>
      has "response" error &&
      String.eqb (typeof (get error "response")) "object"
  end.

Definition getErrorMessage (error : Value) : Value :=
  if isAxiosError error then
    or (or (get_opt (get_opt (get error "response") "data") "detail")
           (get error "message"))
       (Str "An error occurred")
  else if instanceof_Error error then get error "message"
  else Str "An unknown error occurred".

(** The run-time value of a typed error: an object with a [message], and
    a [response] when there is one; its [data], when there is one, has the
    [detail]. The argument says whether the object is an [Error] (as
    axios makes them) or a plain object (as a test double). *)
Definition of_error_body (r : Types.ErrorBody) : Value :=
  Object false
    (match Types.data r with
     | Some d => [("data", Object false [("detail", Str (Types.detail d))])]
     | None => []
     end ++ [("status", Number (Types.status r))]).

Definition of_axios_error (is_error : bool) (e : Types.AxiosError) : Value :=
  Object is_error
    (match Types.response e with
     | Some r => [("response", of_error_body r)]
     | None => []
     end ++ [("message", Str (Types.message e))]).

End ErrorMessage.

(** ** Reloading the page *)

Module Browser.

Import Types Effect AuthContext.

(** A reload throws the provider away and mounts a new one; persistent
    storage is all that survives. *)
Definition reload (w : World) : World := mount (localStorage w).

(** Storage mirrors memory: the slot holds the token that is in memory and
    is absent when there is none, or else nobody is logged in and the slot
    holds the empty string. *)
Definition storage_mirrors_token (w : World) : Prop :=
  localStorage w !! "access_token" = token (auth w) \/
  (token (auth w) = None /\ localStorage w !! "access_token" = Some "").

End Browser.

(** * Properties *)

(** ** Running the monad *)

(** Unfold the operations of the provider down to the replies of the back
    end, which stay as they are. *)
Ltac run_js :=
  cbv [Effect.outcome Effect.exec Effect.bind Effect.ret Effect.throw
       Effect.try_catch Effect.try_finally mbind mret M_bind M_ret
       Lifecycle.run Lifecycle.session
       AuthContext.initialize AuthContext.login AuthContext.register
       AuthContext.logout AuthContext.fetchUserData
       AuthContext.axios_get_users_me AuthContext.axios_post_login
       AuthContext.axios_post_register AuthContext.await
       AuthContext.localStorage_getItem AuthContext.localStorage_setItem
       AuthContext.localStorage_removeItem
       AuthContext.setUser AuthContext.setToken AuthContext.setIsLoading
       AuthContext.log AuthContext.tick AuthContext.with_auth
       AuthContext.with_localStorage AuthContext.mount
       AuthContext.auth AuthContext.localStorage AuthContext.clock
       AuthContext.history AuthContext.user AuthContext.token
       AuthContext.isLoading fst snd] in *.

(** ** JavaScript values *)

Section JsFacts.

Lemma truthy_true (s : string) : Js.truthy s = true <-> s <> "".
Proof. destruct s; simpl; split; congruence. Qed.

Lemma truthy_false (s : string) : Js.truthy s = false <-> s = "".
Proof. destruct s; simpl; split; congruence. Qed.

Lemma strict_neq_true (a b : string) : Js.strict_neq a b = true <-> a <> b.
Proof.
  unfold Js.strict_neq. rewrite negb_true_iff.
  destruct (String.eqb_spec a b); split; congruence.
Qed.

Lemma strict_neq_false (a b : string) : Js.strict_neq a b = false <-> a = b.
Proof.
  unfold Js.strict_neq. rewrite negb_false_iff.
  destruct (String.eqb_spec a b); split; congruence.
Qed.

End JsFacts.

(** ** logout *)

Section Logout.

Import Types Effect AuthContext Lifecycle.

Lemma logout_returns (w : World) : outcome logout w = Returned tt.
Proof. reflexivity. Qed.

Lemma logout_session (w : World) :
  session (exec logout w) =
  (mkAuthState None None (isLoading (auth w)),
   delete "access_token" (localStorage w)).
Proof. reflexivity. Qed.

Lemma logout_logged_out (w : World) : logged_out (exec logout w).
Proof.
  unfold logged_out. run_js. simpl.
  repeat split. apply lookup_delete_eq.
Qed.

(** C6. Whatever the state before, [logout()] returns normally and leaves
    the in-memory token absent, the user absent and the storage slot
    empty; a second logout changes nothing that the first left
    ([logout] after [logout] is [logout]); and from a state that is
    already logged out it changes nothing at all. *)
Theorem logout_clears_and_is_idempotent (w : World) :
  outcome logout w = Returned tt /\
  token (auth (exec logout w)) = None /\
  user (auth (exec logout w)) = None /\
  localStorage (exec logout w) !! "access_token" = None /\
  session (exec logout (exec logout w)) = session (exec logout w) /\
  (logged_out w -> session (exec logout w) = session w).
Proof.
  destruct (logout_logged_out w) as (Hu & Ht & Hs).
  repeat split; try assumption.
  - rewrite !logout_session. simpl. by rewrite delete_delete_eq.
  - intros (Hu' & Ht' & Hs'). rewrite logout_session. unfold session.
    destruct w as [[u t l] ls c h]. simpl in *. subst.
    by rewrite delete_id.
Qed.

Lemma logout_clears_and_is_idempotent_witness :
  logged_out (mount ∅) /\ session (exec logout (mount ∅)) = session (mount ∅).
Proof.
  assert (H : logged_out (mount ∅)) by (repeat split).
  split; [exact H |].
  exact (proj2 (proj2 (proj2 (proj2 (proj2
    (logout_clears_and_is_idempotent (mount ∅)))))) H).
Defined.

End Logout.

(** ** login rejected by the token issuer *)

Section LoginRejected.

Import Types Effect AuthContext Lifecycle.

Variable net : Network.

(** What a rejected login does to the world: the request is in the
    history and the clock has advanced, nothing else. *)
Lemma login_rejected_world (w : World) (username password : string)
    (e : AxiosError) :
  post_login net (clock w) username password = inl e ->
  login net username password w =
  (Thrown e, tick (log (Http (PostForm url_login username password)) w)).
Proof. intros H. run_js. by rewrite H. Qed.

(** C4. When the token issuer rejects the login request, [login] throws
    that very error to its caller, and the user, the token, the loading
    flag and the whole of persistent storage are as they were before the
    call, whatever they were. *)
Theorem login_rejected_keeps_session (w : World) (username password : string)
    (e : AxiosError) :
  post_login net (clock w) username password = inl e ->
  outcome (login net username password) w = Thrown e /\
  user (auth (exec (login net username password) w)) = user (auth w) /\
  token (auth (exec (login net username password) w)) = token (auth w) /\
  localStorage (exec (login net username password) w) = localStorage w /\
  session (exec (login net username password) w) = session w.
Proof.
  intros H. unfold outcome, exec.
  rewrite (login_rejected_world w username password e H).
  by destruct w as [[u t l] ls c h].
Qed.

End LoginRejected.

Lemma login_rejected_keeps_session_witness :
  Effect.outcome (AuthContext.login Scenario.rejecting "alice" "wrong")
    Scenario.logged_in = Effect.Thrown Scenario.bad_credentials /\
  Lifecycle.session
    (Effect.exec (AuthContext.login Scenario.rejecting "alice" "wrong")
       Scenario.logged_in) = Lifecycle.session Scenario.logged_in.
Proof.
  pose proof (login_rejected_keeps_session Scenario.rejecting
                Scenario.logged_in "alice" "wrong" Scenario.bad_credentials
                eq_refl) as H.
  split; [exact (proj1 H) | exact (proj2 (proj2 (proj2 (proj2 H))))].
Defined.

(** ** The route guard *)

Section Guard.

Import Types AuthContext ProtectedRoute.

Lemma guard_loading (s : AuthState) :
  isLoading s = true -> ProtectedRoute s = LoadingPlaceholder.
Proof. unfold ProtectedRoute. by intros ->. Qed.

Lemma guard_children_iff (s : AuthState) :
  ProtectedRoute s = Children <->
  isLoading s = false /\
  exists u t, user s = Some u /\ token s = Some t /\ t <> "".
Proof.
  unfold ProtectedRoute, not_user, not_token.
  destruct s as [[u|] [[|c t]|] []]; simpl; split;
    try discriminate; try reflexivity.
  all: try (intros [? (u' & t' & ? & ? & ?)]; congruence).
  intros _. split; [reflexivity |]. exists u, (String c t).
  repeat split. discriminate.
Qed.

(** C2, as the code has it. The guard is a function of the three fields of
    the session state and of nothing else. While [isLoading] is true it
    returns the loading placeholder, which is neither the protected
    content nor a redirect. Once [isLoading] is false it returns the
    protected content exactly when the user is present and the token is a
    non-empty string, and in every other case it redirects to [/login],
    replacing the history entry. *)
Theorem guard_decision (s : AuthState) :
  (isLoading s = true -> ProtectedRoute s = LoadingPlaceholder) /\
  (isLoading s = false ->
   (exists u t, user s = Some u /\ token s = Some t /\ t <> "") ->
   ProtectedRoute s = Children) /\
  (isLoading s = false ->
   ~ (exists u t, user s = Some u /\ token s = Some t /\ t <> "") ->
   ProtectedRoute s = NavigateTo "/login" true).
Proof.
  split; [apply guard_loading |]. split.
  - intros Hl Hp. apply guard_children_iff. by split.
  - intros Hl Hn.
    assert (Hc : ProtectedRoute s <> Children).
    { intros Hc. apply guard_children_iff in Hc. by destruct Hc. }
    revert Hc. unfold ProtectedRoute. rewrite Hl.
    by destruct (not_user (user s) || not_token (token s)).
Qed.

End Guard.

Lemma guard_decision_witness :
  ProtectedRoute.ProtectedRoute
    (AuthContext.mkAuthState None None true) =
  ProtectedRoute.LoadingPlaceholder /\
  ProtectedRoute.ProtectedRoute
    (AuthContext.mkAuthState (Some Scenario.alice) (Some "jwt-1") false) =
  ProtectedRoute.Children /\
  ProtectedRoute.ProtectedRoute
    (AuthContext.mkAuthState None (Some "jwt-1") false) =
  ProtectedRoute.NavigateTo "/login" true.
Proof.
  split; [| split].
  - exact (proj1 (guard_decision (AuthContext.mkAuthState None None true))
             eq_refl).
  - apply (proj1 (proj2 (guard_decision
             (AuthContext.mkAuthState (Some Scenario.alice) (Some "jwt-1")
                false))) eq_refl).
    exists Scenario.alice, "jwt-1". repeat split. discriminate.
  - apply (proj2 (proj2 (guard_decision
             (AuthContext.mkAuthState None (Some "jwt-1") false))) eq_refl).
    intros (u & t & Hu & _). discriminate Hu.
Defined.

(** C2, as the specification words it, fails where the token is present and empty:
    with a user, the token [""] and [isLoading] false, both fields are
    present, and the guard redirects instead of rendering the protected
    content. *)
Lemma guard_empty_token_redirects :
  AuthContext.isLoading Scenario.empty_token_state = false /\
  is_Some (AuthContext.user Scenario.empty_token_state) /\
  is_Some (AuthContext.token Scenario.empty_token_state) /\
  ProtectedRoute.ProtectedRoute Scenario.empty_token_state =
  ProtectedRoute.NavigateTo "/login" true /\
  ProtectedRoute.ProtectedRoute Scenario.empty_token_state <>
  ProtectedRoute.Children.
Proof.
  repeat split; try (eexists; reflexivity). discriminate.
Qed.

(** ** Initialization over a persisted token *)

Section Initialization.

Import Types Effect AuthContext Lifecycle.

Variable net : Network.

(** Nothing persisted: no request is sent and the session is logged out. *)
Lemma initialize_absent (persisted : gmap string string) :
  persisted !! "access_token" = None ->
  initialize net (mount persisted) =
  (Returned tt,
   mkWorld (mkAuthState None None false) persisted 0
     [LsGetItem "access_token"; SetIsLoading false]).
Proof. intros H. run_js. by rewrite H. Qed.

(** The empty string persisted: the same, and the slot keeps it. *)
Lemma initialize_empty (persisted : gmap string string) :
  persisted !! "access_token" = Some "" ->
  initialize net (mount persisted) =
  (Returned tt,
   mkWorld (mkAuthState None None false) persisted 0
     [LsGetItem "access_token"; SetIsLoading false]).
Proof. intros H. run_js. by rewrite H. Qed.

(** A non-empty token persisted and accepted. *)
Lemma initialize_accepted (persisted : gmap string string) (t : string)
    (u : User) :
  persisted !! "access_token" = Some t ->
  t <> "" ->
  get_users_me net 0 (bearer t) = inr u ->
  initialize net (mount persisted) =
  (Returned tt,
   mkWorld (mkAuthState (Some u) (Some t) false) persisted 1
     [LsGetItem "access_token"; SetToken (Some t);
      Http (Get url_users_me (bearer t)); SetUser (Some u);
      SetIsLoading false]).
Proof.
  intros H Ht Hget. apply truthy_true in Ht. run_js.
  by rewrite H, Ht, Hget.
Qed.

(** A non-empty token persisted and refused. *)
Lemma initialize_rejected (persisted : gmap string string) (t : string)
    (e : AxiosError) :
  persisted !! "access_token" = Some t ->
  t <> "" ->
  get_users_me net 0 (bearer t) = inl e ->
  initialize net (mount persisted) =
  (Returned tt,
   mkWorld (mkAuthState None None false) (delete "access_token" persisted) 1
     [LsGetItem "access_token"; SetToken (Some t);
      Http (Get url_users_me (bearer t)); LsRemoveItem "access_token";
      SetToken None; SetIsLoading false]).
Proof.
  intros H Ht Hget. apply truthy_true in Ht. run_js.
  by rewrite H, Ht, Hget.
Qed.

(** C3, as the code has it. When the persisted token is a non-empty
    string and the profile request that initialization sends for it fails,
    for whatever reason, initialization ends normally in the
    unauthenticated state: the token slot of persistent storage is empty
    and the rest of storage is as it was, the in-memory token and the user
    are absent, and [isLoading] is false. *)
Theorem initialize_rejected_token_unauthenticated
    (persisted : gmap string string) (t : string) (e : AxiosError) :
  persisted !! "access_token" = Some t ->
  t <> "" ->
  get_users_me net 0 (bearer t) = inl e ->
  outcome (initialize net) (mount persisted) = Returned tt /\
  localStorage (exec (initialize net) (mount persisted)) !! "access_token"
    = None /\
  localStorage (exec (initialize net) (mount persisted))
    = delete "access_token" persisted /\
  token (auth (exec (initialize net) (mount persisted))) = None /\
  user (auth (exec (initialize net) (mount persisted))) = None /\
  isLoading (auth (exec (initialize net) (mount persisted))) = false.
Proof.
  intros H Ht Hget. unfold outcome, exec.
  rewrite (initialize_rejected persisted t e H Ht Hget). simpl.
  repeat split. apply lookup_delete_eq.
Qed.

End Initialization.

Lemma initialize_rejected_token_unauthenticated_witness :
  AuthContext.localStorage
    (Effect.exec (AuthContext.initialize Scenario.rejecting)
       (AuthContext.mount Scenario.stale_storage)) =
  delete "access_token" Scenario.stale_storage /\
  AuthContext.token
    (AuthContext.auth
       (Effect.exec (AuthContext.initialize Scenario.rejecting)
          (AuthContext.mount Scenario.stale_storage))) = None.
Proof.
  assert (Hne : "expired-token" <> "") by discriminate.
  pose proof (initialize_rejected_token_unauthenticated Scenario.rejecting
                Scenario.stale_storage "expired-token" Scenario.unauthorized
                eq_refl Hne eq_refl) as H.
  split; [exact (proj1 (proj2 (proj2 H)))
         | exact (proj1 (proj2 (proj2 (proj2 H))))].
Defined.

(** C3, as the specification words it, fails for the persisted token [""]: the
    validator refuses it like every other token, initialization reads it,
    and the slot still holds it afterwards. *)
Lemma initialize_empty_token_stays_persisted :
  Scenario.empty_token_storage !! "access_token" = Some "" /\
  Effect.get_users_me Scenario.rejecting 0 (AuthContext.bearer "")
    = inl Scenario.unauthorized /\
  AuthContext.localStorage
    (Effect.exec (AuthContext.initialize Scenario.rejecting)
       (AuthContext.mount Scenario.empty_token_storage)) !! "access_token"
    = Some "" /\
  AuthContext.localStorage
    (Effect.exec (AuthContext.initialize Scenario.rejecting)
       (AuthContext.mount Scenario.empty_token_storage)) !! "access_token"
    <> None.
Proof.
  assert (H : Scenario.empty_token_storage !! "access_token" = Some "")
    by reflexivity.
  unfold Effect.exec.
  rewrite (initialize_empty Scenario.rejecting _ H). simpl.
  repeat split; try assumption. by rewrite H.
Qed.

(** ** login after the token is issued *)

Section LoginIssued.

Import Types Effect AuthContext Lifecycle.

Variable net : Network.

(** Token issued, profile resolved. *)
Lemma login_issued_accepted (w : World) (username password : string)
    (r : LoginResponse) (u : User) :
  post_login net (clock w) username password = inr r ->
  get_users_me net (S (clock w)) (bearer (access_token r)) = inr u ->
  login net username password w =
  (Returned tt,
   mkWorld (mkAuthState (Some u) (Some (access_token r)) false)
     (<["access_token" := access_token r]> (localStorage w))
     (S (S (clock w)))
     (history w ++
      [Http (PostForm url_login username password);
       LsSetItem "access_token" (access_token r);
       SetToken (Some (access_token r));
       Http (Get url_users_me (bearer (access_token r)));
       SetUser (Some u);
       SetIsLoading false])).
Proof.
  intros Hpost Hget. run_js. rewrite Hpost. simpl. rewrite Hget. simpl.
  by rewrite <- !app_assoc.
Qed.

(** Token issued, profile request failed: the token is taken back from
    storage and from memory; the [user] cell is not written. *)
Lemma login_issued_rejected (w : World) (username password : string)
    (r : LoginResponse) (e : AxiosError) :
  post_login net (clock w) username password = inr r ->
  get_users_me net (S (clock w)) (bearer (access_token r)) = inl e ->
  login net username password w =
  (Returned tt,
   mkWorld (mkAuthState (user (auth w)) None false)
     (delete "access_token" (localStorage w))
     (S (S (clock w)))
     (history w ++
      [Http (PostForm url_login username password);
       LsSetItem "access_token" (access_token r);
       SetToken (Some (access_token r));
       Http (Get url_users_me (bearer (access_token r)));
       LsRemoveItem "access_token";
       SetToken None;
       SetIsLoading false])).
Proof.
  intros Hpost Hget. run_js. rewrite Hpost. simpl. rewrite Hget. simpl.
  by rewrite <- !app_assoc, delete_insert_eq.
Qed.

(** Once the token is issued, [login] returns normally, whatever the
    profile request does. *)
Lemma login_issued_returns (w : World) (username password : string)
    (r : LoginResponse) :
  post_login net (clock w) username password = inr r ->
  outcome (login net username password) w = Returned tt.
Proof.
  intros Hpost. unfold outcome.
  destruct (get_users_me net (S (clock w)) (bearer (access_token r)))
    as [e | u] eqn:Hget.
  - by rewrite (login_issued_rejected w username password r e Hpost Hget).
  - by rewrite (login_issued_accepted w username password r u Hpost Hget).
Qed.

(** [login] throws exactly what the token issuer replied. *)
Lemma login_throws_issuer_error (w : World) (username password : string)
    (e : AxiosError) :
  outcome (login net username password) w = Thrown e <->
  post_login net (clock w) username password = inl e.
Proof.
  split.
  - destruct (post_login net (clock w) username password) as [e' | r] eqn:Hp.
    + unfold outcome. rewrite (login_rejected_world net w _ _ e' Hp). simpl.
      congruence.
    + rewrite (login_issued_returns w _ _ r Hp). discriminate.
  - intros Hp. unfold outcome.
    by rewrite (login_rejected_world net w _ _ e Hp).
Qed.

End LoginIssued.

(** C5, on the code. Someone is logged in as alice and logs in again; the
    issuer issues a fresh token and the profile request for it is refused.
    The token is first persisted and set and then taken back from storage
    and from memory, as for a stale persisted token, but the user is still
    alice: the session is not cleared. *)
Theorem login_profile_failure_keeps_stale_user :
  Effect.post_login Scenario.flaky
    (AuthContext.clock Scenario.logged_in) "alice" "secret"
    = inr (Types.mkLoginResponse "jwt-2" "bearer") /\
  Effect.get_users_me Scenario.flaky
    (S (AuthContext.clock Scenario.logged_in)) (AuthContext.bearer "jwt-2")
    = inl Scenario.unauthorized /\
  AuthContext.auth
    (Effect.exec (AuthContext.login Scenario.flaky "alice" "secret")
       Scenario.logged_in)
    = AuthContext.mkAuthState (Some Scenario.alice) None false /\
  AuthContext.localStorage
    (Effect.exec (AuthContext.login Scenario.flaky "alice" "secret")
       Scenario.logged_in) !! "access_token" = None /\
  AuthContext.history
    (Effect.exec (AuthContext.login Scenario.flaky "alice" "secret")
       Scenario.logged_in) =
  AuthContext.history Scenario.logged_in ++
  [Effect.Http (Effect.PostForm AuthContext.url_login "alice" "secret");
   Effect.LsSetItem "access_token" "jwt-2";
   Effect.SetToken (Some "jwt-2");
   Effect.Http
     (Effect.Get AuthContext.url_users_me (AuthContext.bearer "jwt-2"));
   Effect.LsRemoveItem "access_token";
   Effect.SetToken None;
   Effect.SetIsLoading false].
Proof. vm_compute. repeat split. Qed.

(** ** The login page *)

Section LoginPageFacts.

Import Types Effect AuthContext Lifecycle Page.

Variable net : Network.

(** What the page does when [login] returns normally: it clears the error,
    navigates to the dashboard and ends with its own loading flag off. *)
Lemma handleSubmit_after_login_returned
    (login_fn : string -> string -> M World unit) (s : State)
    (username password : string) (w' : World) :
  login_fn username password (world s) = (Returned tt, w') ->
  LoginPage.handleSubmit login_fn username password s =
  (Returned tt,
   mkState (mkFormState "" false) (log (Navigate "/dashboard") w')).
Proof.
  intros H.
  cbv [LoginPage.handleSubmit mbind M_bind bind try_finally try_catch
       in_world navigate setError Page.setIsLoading world form].
  destruct s as [f w]. simpl in H. by rewrite H.
Qed.

(** What the page does when [login] throws. *)
Lemma handleSubmit_after_login_thrown
    (login_fn : string -> string -> M World unit) (s : State)
    (username password : string) (w' : World) (e : AxiosError) :
  login_fn username password (world s) = (Thrown e, w') ->
  LoginPage.handleSubmit login_fn username password s =
  (Returned tt,
   mkState
     (mkFormState
        (Js.or_else (response_data_detail e) "Login failed. Please try again.")
        false)
     w').
Proof.
  intros H.
  cbv [LoginPage.handleSubmit mbind M_bind bind try_finally try_catch
       in_world navigate setError Page.setIsLoading world form].
  destruct s as [f w]. simpl in H. by rewrite H.
Qed.

(** C9. When the issuer issues a token and the profile request that
    follows fails, [login] still returns normally, with the token taken
    back. The login page, which only sees whether [login] threw, then does
    what it does after a login that succeeded in full: it shows no error
    and navigates to [/dashboard]. *)
Theorem login_swallows_profile_failure (s : State)
    (username password : string) (r : LoginResponse) (e : AxiosError) :
  post_login net (clock (world s)) username password = inr r ->
  get_users_me net (S (clock (world s))) (bearer (access_token r)) = inl e ->
  outcome (login net username password) (world s) = Returned tt /\
  token (auth (exec (login net username password) (world s))) = None /\
  LoginPage.handleSubmit (login net) username password s =
  (Returned tt,
   mkState (mkFormState "" false)
     (log (Navigate "/dashboard")
        (exec (login net username password) (world s)))) /\
  (forall u : User,
     form (exec (LoginPage.handleSubmit
                   (login (mkNetwork (fun _ _ => inr u) (post_login net)
                             (post_register net)))
                   username password) s) =
     form (exec (LoginPage.handleSubmit (login net) username password) s)).
Proof.
  intros Hpost Hget.
  pose proof (login_issued_rejected net (world s) _ _ r e Hpost Hget) as Hl.
  assert (Hpage :
    LoginPage.handleSubmit (login net) username password s =
    (Returned tt,
     mkState (mkFormState "" false)
       (log (Navigate "/dashboard")
          (exec (login net username password) (world s))))).
  { unfold exec at 1. rewrite Hl. simpl.
    by apply handleSubmit_after_login_returned. }
  repeat split.
  - unfold outcome. by rewrite Hl.
  - unfold exec. by rewrite Hl.
  - exact Hpage.
  - intros u. unfold exec at 2. rewrite Hpage. simpl.
    set (net' := mkNetwork (fun _ _ => inr u) (post_login net)
                   (post_register net)).
    pose proof (login_issued_accepted net' (world s) username password r u
                  Hpost eq_refl) as Hl'.
    unfold exec.
    by rewrite (handleSubmit_after_login_returned (login net') s _ _ _ Hl').
Qed.

End LoginPageFacts.

Lemma login_swallows_profile_failure_witness :
  Effect.outcome (AuthContext.login Scenario.flaky "alice" "secret")
    Scenario.logged_in = Effect.Returned tt /\
  Page.form
    (Effect.exec
       (LoginPage.handleSubmit (AuthContext.login Scenario.flaky)
          "alice" "secret")
       (Page.mkState (Page.mkFormState "" false) Scenario.logged_in)) =
  Page.mkFormState "" false.
Proof.
  pose proof (login_swallows_profile_failure Scenario.flaky
                (Page.mkState (Page.mkFormState "" false) Scenario.logged_in)
                "alice" "secret" (Types.mkLoginResponse "jwt-2" "bearer")
                Scenario.unauthorized eq_refl eq_refl) as H.
  split; [exact (proj1 H) |].
  unfold Effect.exec at 1.
  rewrite (proj1 (proj2 (proj2 H))). reflexivity.
Defined.

(** ** The register page *)

Section RegisterPageFacts.

Import Types Effect AuthContext Lifecycle Page.

(** Whatever [useAuth()] handed to the page. *)
Variable register_fn : string -> string -> string -> M World unit.

Lemma handleSubmit_mismatch (s : State)
    (username email password confirmPassword : string) :
  password <> confirmPassword ->
  RegisterPage.handleSubmit register_fn username email password
    confirmPassword s =
  (Returned tt,
   mkState (mkFormState "Passwords do not match" (isLoading (form s)))
     (world s)).
Proof.
  intros H. apply strict_neq_true in H.
  cbv [RegisterPage.handleSubmit mbind M_bind bind setError form world].
  by rewrite H.
Qed.

Lemma handleSubmit_too_short (s : State)
    (username email password : string) :
  String.length password < 6 ->
  RegisterPage.handleSubmit register_fn username email password password s =
  (Returned tt,
   mkState
     (mkFormState "Password must be at least 6 characters"
        (isLoading (form s)))
     (world s)).
Proof.
  intros H. apply Nat.ltb_lt in H.
  cbv [RegisterPage.handleSubmit mbind M_bind bind setError form world].
  assert (Heq : Js.strict_neq password password = false)
    by by apply strict_neq_false.
  by rewrite Heq, H.
Qed.

(** C10. When the password and its confirmation differ, or the password
    has fewer than six characters, submitting the registration form
    returns with a validation message set and with the world of the
    provider exactly as it was: whatever the [register] operation is, it
    was not run, no request was sent (history and clock are part of the
    world), and the session and persistent storage are unchanged. The
    message is [Passwords do not match] when the two differ, and
    [Password must be at least 6 characters] when they agree. *)
Theorem register_form_validation (s : State)
    (username email password confirmPassword : string) :
  password <> confirmPassword \/ String.length password < 6 ->
  outcome (RegisterPage.handleSubmit register_fn username email password
             confirmPassword) s = Returned tt /\
  world (exec (RegisterPage.handleSubmit register_fn username email password
                 confirmPassword) s) = world s /\
  error (form (exec (RegisterPage.handleSubmit register_fn username email
                       password confirmPassword) s)) =
    (if decide (password = confirmPassword)
     then "Password must be at least 6 characters"
     else "Passwords do not match") /\
  error (form (exec (RegisterPage.handleSubmit register_fn username email
                       password confirmPassword) s)) <> "".
Proof.
  intros H. unfold outcome, exec.
  destruct (decide (password = confirmPassword)) as [<- | Hne].
  - destruct H as [H | H]; [congruence |].
    rewrite (handleSubmit_too_short s username email password H). simpl.
    repeat split. discriminate.
  - rewrite (handleSubmit_mismatch s username email _ _ Hne). simpl.
    repeat split. discriminate.
Qed.

End RegisterPageFacts.

Lemma register_form_validation_witness :
  Page.world
    (Effect.exec
       (RegisterPage.handleSubmit (AuthContext.register Scenario.accepting)
          "testuser" "test@example.com" "short" "short")
       (Page.mkState (Page.mkFormState "" false)
          (Effect.exec (AuthContext.initialize Scenario.accepting)
             (AuthContext.mount ∅)))) =
  Effect.exec (AuthContext.initialize Scenario.accepting)
    (AuthContext.mount ∅).
Proof.
  assert (H : "short" <> "short" \/ String.length "short" < 6)
    by (right; simpl; lia).
  exact (proj1 (proj2
    (register_form_validation (AuthContext.register Scenario.accepting)
       (Page.mkState (Page.mkFormState "" false)
          (Effect.exec (AuthContext.initialize Scenario.accepting)
             (AuthContext.mount ∅)))
       "testuser" "test@example.com" "short" "short" H))).
Defined.

(** ** register *)

Section RegisterFacts.

Import Types Effect AuthContext Lifecycle.

Variable net : Network.

Lemma register_rejected (w : World) (username email password : string)
    (e : AxiosError) :
  post_register net (clock w) username email password = inl e ->
  register net username email password w =
  (Thrown e, registration_sent username email password w).
Proof. intros H. run_js. by rewrite H. Qed.

Lemma register_accepted (w : World) (username email password : string)
    (r : RegisterResponse) :
  post_register net (clock w) username email password = inr r ->
  register net username email password w =
  login net username password (registration_sent username email password w).
Proof.
  intros H.
  cbv [register mbind M_bind bind try_catch throw axios_post_register await].
  rewrite H. fold (registration_sent username email password w).
  by destruct (login net username password _) as [[[] | e] w'].
Qed.

(** C7. [register] first sends the registration request with the three
    values it was given. If the request is refused, [register] throws
    that very error and nothing but the request has happened. If it is
    accepted, [register] goes on exactly as [login] with the same username
    and password does from there, in outcome and in effect: what [login]
    throws, [register] throws unchanged, and [login] throws only what the
    token issuer replied. *)
Theorem register_then_login (w : World) (username email password : string) :
  match post_register net (clock w) username email password with
  | inl e =>
      register net username email password w =
      (Thrown e, registration_sent username email password w)
  | inr _ =>
      register net username email password w =
      login net username password
        (registration_sent username email password w) /\
      match post_login net (S (clock w)) username password with
      | inl e => outcome (register net username email password) w = Thrown e
      | inr _ => outcome (register net username email password) w = Returned tt
      end
  end.
Proof.
  destruct (post_register net (clock w) username email password)
    as [e | r] eqn:Hreg.
  - by apply register_rejected.
  - pose proof (register_accepted w username email password r Hreg) as Heq.
    split; [exact Heq |].
    unfold outcome. rewrite Heq.
    destruct (post_login net (S (clock w)) username password)
      as [e | r'] eqn:Hlog.
    + by apply (login_throws_issuer_error net
                  (registration_sent username email password w)).
    + by apply (login_issued_returns net
                  (registration_sent username email password w) _ _ r').
Qed.

End RegisterFacts.

(** ** The storage slot *)

Section Confinement.

Import Types Effect AuthContext Lifecycle.

Variable key : string.

Lemma extends_refl (w : World) : extends key w w.
Proof.
  split; [| reflexivity]. exists []. split; [by rewrite app_nil_r | constructor].
Qed.

Lemma extends_trans (w1 w2 w3 : World) :
  extends key w1 w2 -> extends key w2 w3 -> extends key w1 w3.
Proof.
  intros [(evs1 & H1 & F1) E1] [(evs2 & H2 & F2) E2]. split.
  - exists (evs1 ++ evs2). split.
    + by rewrite H2, H1, app_assoc.
    + by apply Forall_app.
  - congruence.
Qed.

(** One more event, storage untouched. *)
Lemma extends_event (ev : Event) (w w' : World) :
  history w' = history w ++ [ev] ->
  localStorage w' = localStorage w ->
  touches_only key ev ->
  extends key w w'.
Proof.
  intros Hh Hs H. split; [| by rewrite Hs]. exists [ev]. split; [done |].
  by constructor.
Qed.

Lemma confined_ret {A} (a : A) : confined key (mret a : M World A).
Proof. intros w. apply extends_refl. Qed.

Lemma confined_throw {A} (e : AxiosError) : confined key (@throw World A e).
Proof. intros w. apply extends_refl. Qed.

Lemma confined_bind {A B} (m : M World A) (k : A -> M World B) :
  confined key m -> (forall a, confined key (k a)) ->
  confined key (m ≫= k).
Proof.
  intros Hm Hk w. specialize (Hm w). revert Hm.
  cbv [exec mbind M_bind bind snd]. destruct (m w) as [[a | e] w']; [| done].
  intros Hm. eapply extends_trans; [exact Hm |]. apply (Hk a w').
Qed.

Lemma confined_try_catch {A} (body : M World A)
    (handler : AxiosError -> M World A) :
  confined key body -> (forall e, confined key (handler e)) ->
  confined key (try_catch body handler).
Proof.
  intros Hb Hh w. specialize (Hb w). revert Hb.
  cbv [exec try_catch snd]. destruct (body w) as [[a | e] w']; [done |].
  intros Hb. eapply extends_trans; [exact Hb |]. apply (Hh e w').
Qed.

Lemma confined_try_finally {A} (body : M World A) (fin : M World unit) :
  confined key body -> confined key fin ->
  confined key (try_finally body fin).
Proof.
  intros Hb Hf w. specialize (Hb w). revert Hb.
  cbv [exec try_finally snd]. destruct (body w) as [r w']. intros Hb.
  specialize (Hf w'). revert Hf. cbv [exec snd].
  destruct (fin w') as [[[] | e] w'']; intros Hf;
    by eapply extends_trans.
Qed.

Lemma confined_setUser (u : option User) : confined key (setUser u).
Proof. intros w. by apply (extends_event (SetUser u)). Qed.

Lemma confined_setToken (t : option string) : confined key (setToken t).
Proof. intros w. by apply (extends_event (SetToken t)). Qed.

Lemma confined_setIsLoading (b : bool) : confined key (setIsLoading b).
Proof. intros w. by apply (extends_event (SetIsLoading b)). Qed.

Lemma confined_await {A} (req : Request) (reply : nat -> AxiosError + A) :
  confined key (await req reply).
Proof.
  intros w. cbv [exec await snd].
  assert (H : extends key w (tick (log (Http req) w)))
    by by apply (extends_event (Http req)).
  by destruct (reply (clock w)).
Qed.

Lemma confined_getItem : confined key (localStorage_getItem key).
Proof. intros w. by apply (extends_event (LsGetItem key)). Qed.

Lemma confined_setItem (value : string) :
  confined key (localStorage_setItem key value).
Proof.
  intros w. split.
  - exists [LsSetItem key value]. split; [reflexivity |]. by constructor.
  - simpl. apply delete_insert_eq.
Qed.

Lemma confined_removeItem : confined key (localStorage_removeItem key).
Proof.
  intros w. split.
  - exists [LsRemoveItem key]. split; [reflexivity |]. by constructor.
  - simpl. apply delete_delete_eq.
Qed.

End Confinement.

Create HintDb confined.

#[local] Hint Resolve confined_ret confined_throw confined_setUser
  confined_setToken confined_setIsLoading confined_await confined_getItem
  confined_setItem confined_removeItem : confined.

(** Take a composite operation apart and close the primitive ones. *)
Ltac confine :=
  repeat
    lazymatch goal with
    | |- Lifecycle.confined _ (Effect.try_catch _ _) =>
        apply confined_try_catch; [| intros ?]
    | |- Lifecycle.confined _ (Effect.try_finally _ _) =>
        apply confined_try_finally
    | |- Lifecycle.confined _ (mbind _ _) =>
        apply confined_bind; [| intros ?]
    | |- _ => solve [auto with confined]
    end.

Section ConfinedOperations.

Import Types Effect AuthContext Lifecycle.

Variable net : Network.

Lemma confined_axios_get_users_me (authToken : string) :
  confined "access_token" (axios_get_users_me net authToken).
Proof. apply confined_await. Qed.

Lemma confined_axios_post_login (username password : string) :
  confined "access_token" (axios_post_login net username password).
Proof. apply confined_await. Qed.

Lemma confined_axios_post_register (username email password : string) :
  confined "access_token" (axios_post_register net username email password).
Proof. apply confined_await. Qed.

#[local] Hint Resolve confined_axios_get_users_me confined_axios_post_login
  confined_axios_post_register : confined.

Lemma confined_fetchUserData (authToken : string) :
  confined "access_token" (fetchUserData net authToken).
Proof. unfold fetchUserData. confine. Qed.

#[local] Hint Resolve confined_fetchUserData : confined.

Lemma confined_initialize : confined "access_token" (initialize net).
Proof.
  unfold initialize. apply confined_bind; [auto with confined |].
  intros [t |]; [destruct (Js.truthy t) |]; confine.
Qed.

Lemma confined_login (username password : string) :
  confined "access_token" (login net username password).
Proof. unfold login. confine. Qed.

#[local] Hint Resolve confined_login : confined.

Lemma confined_register (username email password : string) :
  confined "access_token" (register net username email password).
Proof. unfold register. confine. Qed.

Lemma confined_logout : confined "access_token" logout.
Proof. unfold logout. confine. Qed.

Lemma confined_run (op : Operation) : confined "access_token" (run net op).
Proof.
  destruct op; simpl.
  - apply confined_initialize.
  - apply confined_fetchUserData.
  - apply confined_login.
  - apply confined_register.
  - apply confined_logout.
Qed.

End ConfinedOperations.

(** ** A token in memory is backed by a validated user *)

Section TokenBacked.

Import Types Effect AuthContext Lifecycle.

Variable net : Network.

Lemma validated_by_app (h evs : list Event) (t : string) (u : User) :
  validated_by h t u -> validated_by (h ++ evs) t u.
Proof.
  intros (h1 & h2 & ->). exists h1, (h2 ++ evs).
  by rewrite <- app_assoc.
Qed.

(** Later events that write neither the session nor storage keep it. *)
Lemma token_backed_later (w w' : World) (evs : list Event) :
  auth w' = auth w ->
  localStorage w' = localStorage w ->
  history w' = history w ++ evs ->
  token_backed w -> token_backed w'.
Proof.
  intros Ha Hs Hh Hw t Ht. rewrite Ha in Ht.
  destruct (Hw t Ht) as (u & Hu & Hls & Hv).
  exists u. rewrite Ha, Hs, Hh. repeat split; try assumption.
  by apply validated_by_app.
Qed.

Lemma token_backed_login (w : World) (username password : string) :
  token_backed w -> token_backed (exec (login net username password) w).
Proof.
  intros Hw. unfold exec.
  destruct (post_login net (clock w) username password) as [e | r] eqn:Hpost.
  - rewrite (login_rejected_world net w _ _ e Hpost). simpl.
    by apply (token_backed_later w _
                [Http (PostForm url_login username password)]).
  - destruct (get_users_me net (S (clock w)) (bearer (access_token r)))
      as [e | u] eqn:Hget.
    + rewrite (login_issued_rejected net w _ _ r e Hpost Hget). simpl.
      intros t Ht. discriminate Ht.
    + rewrite (login_issued_accepted net w _ _ r u Hpost Hget). simpl.
      intros t Ht. simpl in Ht. injection Ht as <-. exists u. simpl.
      repeat split; [apply lookup_insert_eq |].
      exists (history w ++
              [Http (PostForm url_login username password);
               LsSetItem "access_token" (access_token r);
               SetToken (Some (access_token r))]),
             [SetIsLoading false].
      by rewrite <- app_assoc.
Qed.

Lemma token_backed_register (w : World) (username email password : string) :
  token_backed w ->
  token_backed (exec (register net username email password) w).
Proof.
  intros Hw.
  assert (Hsent : token_backed (registration_sent username email password w))
    by by apply (token_backed_later w _
                   [Http (PostJson url_register username email password)]).
  unfold exec.
  destruct (post_register net (clock w) username email password)
    as [e | r] eqn:Hreg.
  - by rewrite (register_rejected net w _ _ _ e Hreg).
  - rewrite (register_accepted net w _ _ _ r Hreg).
    by apply token_backed_login.
Qed.

Lemma token_backed_logout (w : World) : token_backed (exec logout w).
Proof. intros t Ht. discriminate Ht. Qed.

Lemma token_backed_initialize (persisted : gmap string string) :
  token_backed (exec (initialize net) (mount persisted)).
Proof.
  unfold exec.
  destruct (persisted !! "access_token") as [t |] eqn:Hls.
  - destruct (decide (t = "")) as [-> | Hne].
    + rewrite (initialize_empty net persisted Hls).
      intros t Ht. discriminate Ht.
    + destruct (get_users_me net 0 (bearer t)) as [e | u] eqn:Hget.
      * rewrite (initialize_rejected net persisted t e Hls Hne Hget).
        intros t' Ht. discriminate Ht.
      * rewrite (initialize_accepted net persisted t u Hls Hne Hget).
        intros t' Ht. simpl in Ht. injection Ht as <-. exists u. simpl.
        repeat split; [assumption |].
        by exists [LsGetItem "access_token"; SetToken (Some t)],
                  [SetIsLoading false].
  - rewrite (initialize_absent net persisted Hls).
    intros t Ht. discriminate Ht.
Qed.

(** Between two operations, a token in memory comes with the user that the
    profile request for it returned, and the storage slot holds it. *)
Lemma reachable_token_backed (w : World) :
  reachable net w -> token_backed w.
Proof.
  induction 1 as [persisted | w op Hr IH Hop].
  - apply token_backed_initialize.
  - destruct op; try discriminate Hop; simpl.
    + by apply token_backed_login.
    + by apply token_backed_register.
    + apply token_backed_logout.
Qed.

End TokenBacked.

(** C8. Every operation of the provider (the mount effect, the profile
    fetch, login, register, logout), run from any world against any back
    end, accesses persistent storage in the slot [access_token] only:
    every storage event it adds to the history is a read, a write or a
    removal of that slot, and all the other slots hold afterwards what
    they held before. When the slot is absent at initialization, the
    session ends logged out (no user, no token, not loading) without a
    request being sent. And whenever a token is in memory between two
    operations, the slot holds that very string. *)
Theorem storage_confined_to_access_token (net : Effect.Network) :
  (forall op w,
     Lifecycle.extends "access_token" w (Effect.exec (Lifecycle.run net op) w)) /\
  (forall persisted : gmap string string,
     persisted !! "access_token" = None ->
     AuthContext.initialize net (AuthContext.mount persisted) =
     (Effect.Returned tt,
      AuthContext.mkWorld (AuthContext.mkAuthState None None false)
        persisted 0
        [Effect.LsGetItem "access_token"; Effect.SetIsLoading false])) /\
  (forall w t,
     Lifecycle.reachable net w ->
     AuthContext.token (AuthContext.auth w) = Some t ->
     AuthContext.localStorage w !! "access_token" = Some t).
Proof.
  split; [| split].
  - intros op w. apply confined_run.
  - apply initialize_absent.
  - intros w t Hr Ht.
    destruct (reachable_token_backed net w Hr t Ht) as (u & _ & Hs & _).
    exact Hs.
Qed.

Lemma storage_confined_to_access_token_witness :
  AuthContext.auth
    (Effect.exec (AuthContext.initialize Scenario.accepting)
       (AuthContext.mount ∅)) =
  AuthContext.mkAuthState None None false /\
  AuthContext.localStorage Scenario.logged_in !! "access_token" = Some "jwt-1".
Proof.
  split.
  - unfold Effect.exec.
    by rewrite (proj1 (proj2
         (storage_confined_to_access_token Scenario.accepting)) ∅
         (lookup_empty "access_token")).
  - apply (proj2 (proj2 (storage_confined_to_access_token Scenario.flaky))).
    + apply (Lifecycle.reach_call Scenario.flaky _
               (Lifecycle.Login "alice" "secret")); [| reflexivity].
      apply Lifecycle.reach_initialize.
    + reflexivity.
Defined.

(** C1, on the code. Against the back end [flaky]: the provider is
    mounted over empty storage, alice logs in, and logs in again; the
    second time a fresh token is issued and its profile request is
    refused. The world this ends in is reachable, its user is alice, and
    it has no token, neither in memory nor in storage. *)
Theorem reachable_user_without_token :
  Lifecycle.reachable Scenario.flaky
    (Effect.exec (AuthContext.login Scenario.flaky "alice" "secret")
       Scenario.logged_in) /\
  AuthContext.user
    (AuthContext.auth
       (Effect.exec (AuthContext.login Scenario.flaky "alice" "secret")
          Scenario.logged_in)) = Some Scenario.alice /\
  AuthContext.token
    (AuthContext.auth
       (Effect.exec (AuthContext.login Scenario.flaky "alice" "secret")
          Scenario.logged_in)) = None /\
  AuthContext.localStorage
    (Effect.exec (AuthContext.login Scenario.flaky "alice" "secret")
       Scenario.logged_in) !! "access_token" = None.
Proof.
  split.
  - apply (Lifecycle.reach_call Scenario.flaky _
             (Lifecycle.Login "alice" "secret")); [| reflexivity].
    apply (Lifecycle.reach_call Scenario.flaky _
             (Lifecycle.Login "alice" "secret")); [| reflexivity].
    apply Lifecycle.reach_initialize.
  - vm_compute. repeat split.
Qed.

(** * Further properties of the code *)

(** ** The outcomes of the provider's operations, case by case *)

Section Cases.

Import Types Effect AuthContext Lifecycle.

Variable net : Network.

Lemma requests_app (h1 h2 : list Event) :
  requests (h1 ++ h2) = requests h1 ++ requests h2.
Proof. apply omap_app. Qed.

(** The profile fetch, from any world. *)
Lemma fetchUserData_accepted (w : World) (authToken : string) (u : User) :
  get_users_me net (clock w) (bearer authToken) = inr u ->
  fetchUserData net authToken w =
  (Returned tt,
   mkWorld (mkAuthState (Some u) (token (auth w)) false)
     (localStorage w) (S (clock w))
     (history w ++
      [Http (Get url_users_me (bearer authToken)); SetUser (Some u);
       SetIsLoading false])).
Proof. intros H. run_js. rewrite H. simpl. by rewrite <- !app_assoc. Qed.

Lemma fetchUserData_rejected (w : World) (authToken : string)
    (e : AxiosError) :
  get_users_me net (clock w) (bearer authToken) = inl e ->
  fetchUserData net authToken w =
  (Returned tt,
   mkWorld (mkAuthState (user (auth w)) None false)
     (delete "access_token" (localStorage w)) (S (clock w))
     (history w ++
      [Http (Get url_users_me (bearer authToken));
       LsRemoveItem "access_token"; SetToken None; SetIsLoading false])).
Proof. intros H. run_js. rewrite H. simpl. by rewrite <- !app_assoc. Qed.

(** Initialization from any world, not only from a fresh mount. *)
Lemma initialize_no_token (w : World) :
  Js.truthy_opt (localStorage w !! "access_token") = false ->
  initialize net w =
  (Returned tt,
   mkWorld (mkAuthState (user (auth w)) (token (auth w)) false)
     (localStorage w) (clock w)
     (history w ++ [LsGetItem "access_token"; SetIsLoading false])).
Proof.
  intros H.
  destruct (localStorage w !! "access_token") as [t |] eqn:E; simpl in H;
    run_js; rewrite E; simpl.
  - rewrite H. by rewrite <- !app_assoc.
  - by rewrite <- !app_assoc.
Qed.

Lemma initialize_token (w : World) (t : string) :
  localStorage w !! "access_token" = Some t ->
  t <> "" ->
  initialize net w =
  fetchUserData net t
    (log (SetToken (Some t))
       (with_auth (mkAuthState (user (auth w)) (Some t) (isLoading (auth w)))
          (log (LsGetItem "access_token") w))).
Proof.
  intros H Ht. apply truthy_true in Ht.
  cbv [initialize mbind M_bind bind localStorage_getItem setToken].
  rewrite H, Ht. reflexivity.
Qed.

End Cases.

(** ** The mount effect and the profile fetch *)

Section MountEffect.

Import Types Effect AuthContext Lifecycle.

Variable net : Network.

Lemma fetchUserData_returns (w : World) (authToken : string) :
  outcome (fetchUserData net authToken) w = Returned tt /\
  isLoading (auth (exec (fetchUserData net authToken) w)) = false.
Proof.
  unfold outcome, exec.
  destruct (get_users_me net (clock w) (bearer authToken))
    as [e | u] eqn:Hget.
  - by rewrite (fetchUserData_rejected net w authToken e Hget).
  - by rewrite (fetchUserData_accepted net w authToken u Hget).
Qed.

Lemma initialize_returns (w : World) :
  outcome (initialize net) w = Returned tt /\
  isLoading (auth (exec (initialize net) w)) = false.
Proof.
  destruct (localStorage w !! "access_token") as [t |] eqn:Hls.
  - destruct (decide (t = "")) as [-> | Hne].
    + unfold outcome, exec. rewrite initialize_no_token; [done |].
      by rewrite Hls.
    + unfold outcome, exec. rewrite (initialize_token net w t Hls Hne).
      apply fetchUserData_returns.
  - unfold outcome, exec. rewrite initialize_no_token; [done |].
    by rewrite Hls.
Qed.

(** X1. The profile fetch and the mount effect never throw, whatever the
    back end replies and whatever the world they start from, and both
    leave [isLoading] false: nothing is left unhandled, and the loading
    placeholder always goes away. *)
Theorem mount_effect_never_throws (w : World) :
  outcome (initialize net) w = Returned tt /\
  isLoading (auth (exec (initialize net) w)) = false /\
  forall authToken,
    outcome (fetchUserData net authToken) w = Returned tt /\
    isLoading (auth (exec (fetchUserData net authToken) w)) = false.
Proof.
  destruct (initialize_returns w) as [Ho Hl].
  repeat split; try assumption; apply fetchUserData_returns.
Qed.

(** X2. Restoring a session. When the slot holds a non-empty token and the
    back end accepts it, the mount effect ends authenticated: the token in
    memory is the persisted one, the user is the profile the back end
    returned, storage is untouched, exactly one request was sent, a [GET]
    of [/users/me] with the header [Bearer] followed by the token, and the
    route guard renders the protected content. *)
Theorem initialize_restores_session (persisted : gmap string string)
    (t : string) (u : User) :
  persisted !! "access_token" = Some t ->
  t <> "" ->
  get_users_me net 0 ("Bearer " +:+ t) = inr u ->
  auth (exec (initialize net) (mount persisted)) =
    mkAuthState (Some u) (Some t) false /\
  localStorage (exec (initialize net) (mount persisted)) = persisted /\
  requests (history (exec (initialize net) (mount persisted))) =
    [Get "http://localhost:8000/users/me" ("Bearer " +:+ t)] /\
  ProtectedRoute.ProtectedRoute
    (auth (exec (initialize net) (mount persisted))) =
    ProtectedRoute.Children.
Proof.
  intros Hls Hne Hget. unfold exec.
  rewrite (initialize_accepted net persisted t u Hls Hne Hget). simpl.
  repeat split. apply guard_children_iff. split; [done |].
  by exists u, t.
Qed.

End MountEffect.

Lemma initialize_restores_session_witness :
  AuthContext.auth
    (Effect.exec (AuthContext.initialize Scenario.accepting)
       (AuthContext.mount Scenario.stale_storage)) =
  AuthContext.mkAuthState (Some Scenario.alice) (Some "expired-token") false.
Proof.
  assert (Hne : "expired-token" <> "") by discriminate.
  exact (proj1 (initialize_restores_session Scenario.accepting
                  Scenario.stale_storage "expired-token" Scenario.alice
                  eq_refl Hne eq_refl)).
Defined.

(** ** What holds between two operations *)

Section Reachable.

Import Types Effect AuthContext Lifecycle.

Variable net : Network.





End Reachable.



(** ** Persistence across reloads *)

Section Reload.

Import Types Effect AuthContext Lifecycle Browser.

Variable net : Network.

(** X5. A login survives a reload. After a login in which a non-empty
    token was issued and its profile resolved, reloading the page against
    a back end that still accepts the token restores the session: the
    token in memory is again the issued one, the user is the profile just
    returned, and storage is as the login left it. *)
Theorem login_survives_reload (net_later : Network) (w : World)
    (username password : string) (r : LoginResponse) (u u_later : User) :
  post_login net (clock w) username password = inr r ->
  access_token r <> "" ->
  get_users_me net (S (clock w)) ("Bearer " +:+ access_token r) = inr u ->
  get_users_me net_later 0 ("Bearer " +:+ access_token r) = inr u_later ->
  auth (exec (initialize net_later)
          (reload (exec (login net username password) w))) =
    mkAuthState (Some u_later) (Some (access_token r)) false /\
  localStorage (exec (initialize net_later)
                  (reload (exec (login net username password) w))) =
    localStorage (exec (login net username password) w).
Proof.
  intros Hpost Hne Hget Hlater. unfold exec at 2 4 5, reload.
  rewrite (login_issued_accepted net w _ _ r u Hpost Hget). simpl.
  unfold exec.
  by rewrite (initialize_accepted net_later _ (access_token r) u_later
                (lookup_insert_eq _ _ _) Hne Hlater).
Qed.

(** X6. A logout survives a reload. After [logout], from any world, a
    reload ends logged out and not loading without a single request being
    sent, whatever the back end would have replied, and the route guard
    redirects to [/login]. *)
Theorem logout_survives_reload (w : World) :
  auth (exec (initialize net) (reload (exec logout w))) =
    mkAuthState None None false /\
  requests (history (exec (initialize net) (reload (exec logout w)))) = [] /\
  localStorage (exec (initialize net) (reload (exec logout w))) =
    delete "access_token" (localStorage w) /\
  ProtectedRoute.ProtectedRoute
    (auth (exec (initialize net) (reload (exec logout w)))) =
    ProtectedRoute.NavigateTo "/login" true.
Proof.
  unfold reload, exec at 2 4 6 8. simpl. unfold exec.
  by rewrite (initialize_absent net _ (lookup_delete_eq _ _)).
Qed.

(** X7. A refused token does not come back. When the mount effect finds a
    non-empty token that the back end refuses, the next reload sends no
    request at all and ends logged out: the refusal is remembered in
    storage. *)
Theorem rejected_token_survives_reload (net_later : Network)
    (persisted : gmap string string) (t : string) (e : AxiosError) :
  persisted !! "access_token" = Some t ->
  t <> "" ->
  get_users_me net 0 ("Bearer " +:+ t) = inl e ->
  auth (exec (initialize net_later)
          (reload (exec (initialize net) (mount persisted)))) =
    mkAuthState None None false /\
  requests (history (exec (initialize net_later)
                       (reload (exec (initialize net) (mount persisted))))) =
    [].
Proof.
  intros Hls Hne Hget. unfold reload, exec at 2 4.
  rewrite (initialize_rejected net persisted t e Hls Hne Hget). simpl.
  unfold exec.
  by rewrite (initialize_absent net_later _ (lookup_delete_eq _ _)).
Qed.

End Reload.

Lemma login_survives_reload_witness :
  AuthContext.auth
    (Effect.exec (AuthContext.initialize Scenario.accepting)
       (Browser.reload
          (Effect.exec (AuthContext.login Scenario.accepting "alice" "secret")
             (AuthContext.mount ∅)))) =
  AuthContext.mkAuthState (Some Scenario.alice) (Some "jwt-1") false.
Proof.
  assert (Hne : "jwt-1" <> "") by discriminate.
  exact (proj1 (login_survives_reload Scenario.accepting Scenario.accepting
                  (AuthContext.mount ∅) "alice" "secret"
                  (Types.mkLoginResponse "jwt-1" "bearer")
                  Scenario.alice Scenario.alice eq_refl Hne eq_refl eq_refl)).
Defined.

Lemma rejected_token_survives_reload_witness :
  AuthContext.auth
    (Effect.exec (AuthContext.initialize Scenario.accepting)
       (Browser.reload
          (Effect.exec (AuthContext.initialize Scenario.rejecting)
             (AuthContext.mount Scenario.stale_storage)))) =
  AuthContext.mkAuthState None None false.
Proof.
  assert (Hne : "expired-token" <> "") by discriminate.
  exact (proj1 (rejected_token_survives_reload Scenario.rejecting
                  Scenario.accepting Scenario.stale_storage "expired-token"
                  Scenario.unauthorized eq_refl Hne eq_refl)).
Defined.

(** ** What login and register send, and what they leave behind *)

Section Traffic.

Import Types Effect AuthContext Lifecycle.

Variable net : Network.

Lemma login_requests (w : World) (username password : string) :
  requests (history (exec (login net username password) w)) =
  requests (history w) ++
  PostForm url_login username password ::
  match post_login net (clock w) username password with
  | inl _ => []
  | inr r => [Get url_users_me (bearer (access_token r))]
  end.
Proof.
  unfold exec.
  destruct (post_login net (clock w) username password) as [e | r] eqn:Hpost.
  - rewrite (login_rejected_world net w _ _ e Hpost). simpl.
    by rewrite requests_app.
  - destruct (get_users_me net (S (clock w)) (bearer (access_token r)))
      as [e | u] eqn:Hget.
    + rewrite (login_issued_rejected net w _ _ r e Hpost Hget). simpl.
      by rewrite requests_app.
    + rewrite (login_issued_accepted net w _ _ r u Hpost Hget). simpl.
      by rewrite requests_app.
Qed.

Lemma register_requests (w : World) (username email password : string) :
  requests (history (exec (register net username email password) w)) =
  requests (history w) ++
  PostJson url_register username email password ::
  match post_register net (clock w) username email password with
  | inl _ => []
  | inr _ =>
      PostForm url_login username password ::
      match post_login net (S (clock w)) username password with
      | inl _ => []
      | inr r => [Get url_users_me (bearer (access_token r))]
      end
  end.
Proof.
  unfold exec at 1.
  destruct (post_register net (clock w) username email password)
    as [e | r] eqn:Hreg.
  - rewrite (register_rejected net w _ _ _ e Hreg). simpl.
    by rewrite requests_app.
  - rewrite (register_accepted net w _ _ _ r Hreg).
    fold (exec (login net username password)
            (registration_sent username email password w)).
    rewrite login_requests. simpl. rewrite requests_app. simpl.
    by rewrite <- app_assoc.
Qed.

(** X8. The requests of the provider. [login] sends the credentials to
    [/login] and then, only if a token was issued, one [GET] of
    [/users/me] whose [Authorization] header is [Bearer] followed by
    exactly that token. [register] sends the three values to [/register]
    and then, only if that was accepted, does what [login] does.
    [logout] sends nothing. No other request is ever made, so at most
    two requests per login and three per registration. *)
Theorem provider_requests (w : World) (username email password : string) :
  requests (history (exec (login net username password) w)) =
    requests (history w) ++
    PostForm "http://localhost:8000/login" username password ::
    match post_login net (clock w) username password with
    | inl _ => []
    | inr r =>
        [Get "http://localhost:8000/users/me" ("Bearer " +:+ access_token r)]
    end /\
  requests (history (exec (register net username email password) w)) =
    requests (history w) ++
    PostJson "http://localhost:8000/register" username email password ::
    match post_register net (clock w) username email password with
    | inl _ => []
    | inr _ =>
        PostForm "http://localhost:8000/login" username password ::
        match post_login net (S (clock w)) username password with
        | inl _ => []
        | inr r =>
            [Get "http://localhost:8000/users/me"
               ("Bearer " +:+ access_token r)]
        end
    end /\
  requests (history (exec logout w)) = requests (history w).
Proof.
  split; [apply login_requests | split].
  - apply register_requests.
  - simpl. rewrite !requests_app. simpl. by rewrite !app_nil_r.
Qed.

(** X9. A registration that throws leaves the session alone. Whenever
    [register] throws, at the registration request or at the login that
    follows it, the user, the token, the loading flag and persistent
    storage are what they were before the call, and the error is the
    reply of the request that failed. *)
Theorem register_thrown_keeps_session (w : World)
    (username email password : string) (err : AxiosError) :
  outcome (register net username email password) w = Thrown err ->
  session (exec (register net username email password) w) = session w /\
  (post_register net (clock w) username email password = inl err \/
   (exists r, post_register net (clock w) username email password = inr r) /\
   post_login net (S (clock w)) username password = inl err).
Proof.
  unfold outcome, exec.
  destruct (post_register net (clock w) username email password)
    as [e | r] eqn:Hreg.
  - rewrite (register_rejected net w _ _ _ e Hreg). simpl.
    intros [= ->]. split; [| by left].
    by destruct w as [[u t l] ls c h].
  - rewrite (register_accepted net w _ _ _ r Hreg).
    intros Hthrown.
    apply (login_throws_issuer_error net
             (registration_sent username email password w)) in Hthrown.
    rewrite (login_rejected_world net _ _ _ err Hthrown). simpl.
    split; [by destruct w as [[u t l] ls c h] |].
    right. split; [by exists r | exact Hthrown].
Qed.

(** X10. A login that succeeds replaces the session it finds. When the
    token is issued and its profile resolved, the session afterwards is
    the new user with the new token, not loading, and the slot holds the
    new token, whoever was logged in before and whatever the slot held;
    the other slots are untouched. The route guard then renders the
    protected content unless the issued token is the empty string. *)
Theorem login_replaces_session (w : World) (username password : string)
    (r : LoginResponse) (u : User) :
  post_login net (clock w) username password = inr r ->
  get_users_me net (S (clock w)) ("Bearer " +:+ access_token r) = inr u ->
  outcome (login net username password) w = Returned tt /\
  session (exec (login net username password) w) =
    (mkAuthState (Some u) (Some (access_token r)) false,
     <["access_token" := access_token r]> (localStorage w)) /\
  ProtectedRoute.ProtectedRoute (auth (exec (login net username password) w)) =
    (if Js.truthy (access_token r)
     then ProtectedRoute.Children
     else ProtectedRoute.NavigateTo "/login" true).
Proof.
  intros Hpost Hget. unfold outcome, exec.
  rewrite (login_issued_accepted net w _ _ r u Hpost Hget). simpl.
  repeat split.
  unfold ProtectedRoute.ProtectedRoute, ProtectedRoute.not_token. simpl.
  by destruct (Js.truthy (access_token r)).
Qed.

End Traffic.

Lemma register_thrown_keeps_session_witness :
  Lifecycle.session
    (Effect.exec
       (AuthContext.register Scenario.rejecting "alice" "alice@example.com"
          "secret")
       Scenario.logged_in) =
  Lifecycle.session Scenario.logged_in.
Proof.
  exact (proj1 (register_thrown_keeps_session Scenario.rejecting
                  Scenario.logged_in "alice" "alice@example.com" "secret"
                  Scenario.duplicate_user eq_refl)).
Defined.

Lemma login_replaces_session_witness :
  Lifecycle.session
    (Effect.exec (AuthContext.login Scenario.accepting "alice" "secret")
       Scenario.logged_in) =
  (AuthContext.mkAuthState (Some Scenario.alice) (Some "jwt-1") false,
   <["access_token" := "jwt-1"]>
     (AuthContext.localStorage Scenario.logged_in)).
Proof.
  exact (proj1 (proj2 (login_replaces_session Scenario.accepting
                         Scenario.logged_in "alice" "secret"
                         (Types.mkLoginResponse "jwt-1" "bearer")
                         Scenario.alice eq_refl eq_refl))).
Defined.

(** ** The pages, for any provider *)

Section Pages.

Import Types Effect AuthContext Lifecycle Page.

Lemma or_else_nonempty (a : option string) (b : string) :
  b <> "" -> Js.or_else a b <> "".
Proof.
  intros Hb. unfold Js.or_else. destruct a as [s |]; [| done].
  destruct (Js.truthy s) eqn:Hs; [| done]. by apply truthy_true.
Qed.

(** X11. The login page, whatever [login] it is given. Submitting never
    throws and always ends with the page's loading flag off. If [login]
    returned, no error is shown and the page navigates to [/dashboard];
    if [login] threw, the page does not navigate and shows a message that
    is never empty: the [detail] of the reply when there is a non-empty
    one, and [Login failed. Please try again.] otherwise. Nothing else
    happens to the world than what [login] did. *)
Theorem login_page_submit (login_fn : string -> string -> M World unit)
    (s : State) (username password : string) :
  match login_fn username password (world s) with
  | (Returned _, w') =>
      LoginPage.handleSubmit login_fn username password s =
      (Returned tt,
       mkState (mkFormState "" false) (log (Navigate "/dashboard") w'))
  | (Thrown e, w') =>
      LoginPage.handleSubmit login_fn username password s =
      (Returned tt,
       mkState
         (mkFormState
            (Js.or_else (response_data_detail e)
               "Login failed. Please try again.")
            false)
         w') /\
      Js.or_else (response_data_detail e) "Login failed. Please try again."
        <> ""
  end.
Proof.
  destruct (login_fn username password (world s)) as [[[] | e] w'] eqn:Hl.
  - by apply handleSubmit_after_login_returned.
  - split; [by apply handleSubmit_after_login_thrown |].
    by apply or_else_nonempty.
Qed.

Section RegisterValid.

Variable register_fn : string -> string -> string -> M World unit.

Lemma handleSubmit_valid (s : State) (username email password : string) :
  6 <= String.length password ->
  RegisterPage.handleSubmit register_fn username email password password s =
  match register_fn username email password (world s) with
  | (Returned _, w') =>
      (Returned tt,
       mkState (mkFormState "" false) (log (Navigate "/dashboard") w'))
  | (Thrown e, w') =>
      (Returned tt,
       mkState
         (mkFormState
            (Js.or_else (response_data_detail e)
               "Registration failed. Please try again.")
            false)
         w')
  end.
Proof.
  intros Hlen.
  assert (Heq : Js.strict_neq password password = false)
    by by apply strict_neq_false.
  assert (Hlt : (String.length password <? 6)%nat = false)
    by by apply Nat.ltb_ge.
  cbv [RegisterPage.handleSubmit mbind M_bind bind try_finally try_catch
       in_world navigate setError Page.setIsLoading world form].
  rewrite Heq, Hlt. destruct s as [f w]. simpl.
  by destruct (register_fn username email password w) as [[[] | e] w'].
Qed.

(** X12. The register page on a form that passes validation, whatever
    [register] it is given. When the password has at least six characters
    (six is enough) and the confirmation equals it, [register] is run
    once, on the username, the email and the password, from the world as
    it is. Submitting never throws and ends with the page's loading flag
    off; if [register] returned, no error is shown and the page navigates
    to [/dashboard]; if it threw, the page does not navigate and shows the
    [detail] of the reply when there is a non-empty one and
    [Registration failed. Please try again.] otherwise. *)
Theorem register_page_submit_valid (s : State)
    (username email password : string) :
  6 <= String.length password ->
  RegisterPage.handleSubmit register_fn username email password password s =
  match register_fn username email password (world s) with
  | (Returned _, w') =>
      (Returned tt,
       mkState (mkFormState "" false) (log (Navigate "/dashboard") w'))
  | (Thrown e, w') =>
      (Returned tt,
       mkState
         (mkFormState
            (Js.or_else (response_data_detail e)
               "Registration failed. Please try again.")
            false)
         w')
  end /\
  error (form (exec (RegisterPage.handleSubmit register_fn username email
                       password password) s)) =
  match register_fn username email password (world s) with
  | (Returned _, _) => ""
  | (Thrown e, _) =>
      Js.or_else (response_data_detail e)
        "Registration failed. Please try again."
  end.
Proof.
  intros Hlen. split; [by apply handleSubmit_valid |].
  unfold exec. rewrite (handleSubmit_valid s username email password Hlen).
  by destruct (register_fn username email password (world s))
    as [[[] | e] w'].
Qed.

End RegisterValid.

End Pages.

Lemma register_page_submit_valid_witness :
  Page.error
    (Page.form
       (Effect.exec
          (RegisterPage.handleSubmit (AuthContext.register Scenario.rejecting)
             "alice" "alice@example.com" "secret" "secret")
          (Page.mkState (Page.mkFormState "" false) (AuthContext.mount ∅)))) =
  "Username or email already registered".
Proof.
  assert (Hlen : 6 <= String.length "secret") by (simpl; lia).
  exact (proj2 (register_page_submit_valid
                  (AuthContext.register Scenario.rejecting)
                  (Page.mkState (Page.mkFormState "" false)
                     (AuthContext.mount ∅))
                  "alice" "alice@example.com" "secret" Hlen)).
Defined.

(** ** The pages over the provider *)

Section PagesOverProvider.

Import Types Effect AuthContext Lifecycle Page.

Variable net : Network.

(** X13. The register page sends a request exactly when the form passes
    validation: the requests in the history after a submission are those
    before it if and only if the confirmation differs from the password
    or the password has fewer than six characters. *)
Theorem register_page_sends_iff_valid (s : State)
    (username email password confirmPassword : string) :
  requests (history (world (exec
    (RegisterPage.handleSubmit (register net) username email password
       confirmPassword) s))) = requests (history (world s))
  <->
  password <> confirmPassword \/ String.length password < 6.
Proof.
  split.
  - intros Hsame.
    destruct (decide (password = confirmPassword)) as [<- | Hne];
      [| by left].
    destruct (le_lt_dec 6 (String.length password)) as [Hlen | Hlt];
      [| by right].
    exfalso. revert Hsame. unfold exec.
    rewrite (handleSubmit_valid (register net) s username email password
               Hlen).
    pose proof (register_requests net (world s) username email password)
      as Hreq.
    unfold exec in Hreq.
    destruct (register net username email password (world s))
      as [[[] | e] w'] eqn:Hr; simpl in *.
    + rewrite requests_app, Hreq. simpl. rewrite app_nil_r.
      intros H. apply (f_equal length) in H. rewrite length_app in H.
      simpl in H. lia.
    + rewrite Hreq.
      intros H. apply (f_equal length) in H. rewrite length_app in H.
      simpl in H. lia.
  - intros H. unfold exec.
    destruct (decide (password = confirmPassword)) as [<- | Hne].
    + destruct H as [H | H]; [congruence |].
      by rewrite (handleSubmit_too_short (register net) s username email
                    password H).
    + by rewrite (handleSubmit_mismatch (register net) s username email _ _
                    Hne).
Qed.

(** X14. The login page on bad credentials. When the token issuer
    refuses the login, the page shows the [detail] of the reply if there
    is a non-empty one and [Login failed. Please try again.] otherwise,
    stays where it is, and the session and persistent storage are what
    they were: the only thing that happened is the one request. *)
Theorem login_page_rejected (s : State) (username password : string)
    (e : AxiosError) :
  post_login net (clock (world s)) username password = inl e ->
  error (form (exec (LoginPage.handleSubmit (login net) username password) s))
    = Js.or_else (response_data_detail e) "Login failed. Please try again." /\
  session (world (exec (LoginPage.handleSubmit (login net) username password)
                    s)) = session (world s) /\
  history (world (exec (LoginPage.handleSubmit (login net) username password)
                    s)) =
    history (world s) ++
    [Http (PostForm "http://localhost:8000/login" username password)].
Proof.
  intros Hpost. unfold exec.
  rewrite (handleSubmit_after_login_thrown (login net) s username password
             _ e (login_rejected_world net (world s) _ _ e Hpost)).
  simpl. repeat split; by destruct (world s) as [[u t l] ls c h].
Qed.

(** X15. The login page after a profile failure. When a token is issued
    and the profile request for it fails, the page shows no error and
    navigates to [/dashboard], but the session it leaves has no token, in
    memory or in storage, so the route guard in front of the dashboard
    redirects to [/login]. *)
Theorem login_page_profile_failure_redirects (s : State)
    (username password : string) (r : LoginResponse) (e : AxiosError) :
  post_login net (clock (world s)) username password = inr r ->
  get_users_me net (S (clock (world s))) ("Bearer " +:+ access_token r)
    = inl e ->
  error (form (exec (LoginPage.handleSubmit (login net) username password) s))
    = "" /\
  last (history (world (exec (LoginPage.handleSubmit (login net) username
                                password) s))) = Some (Navigate "/dashboard") /\
  localStorage (world (exec (LoginPage.handleSubmit (login net) username
                               password) s)) !! "access_token" = None /\
  ProtectedRoute.ProtectedRoute
    (auth (world (exec (LoginPage.handleSubmit (login net) username password)
                    s))) = ProtectedRoute.NavigateTo "/login" true.
Proof.
  intros Hpost Hget. unfold exec.
  rewrite (handleSubmit_after_login_returned (login net) s username password
             _ (login_issued_rejected net (world s) _ _ r e Hpost Hget)).
  simpl. repeat split.
  - by rewrite last_snoc.
  - apply lookup_delete_eq.
  - unfold ProtectedRoute.ProtectedRoute. simpl. by rewrite orb_true_r.
Qed.

(** X16. Logging out from the dashboard. From any world, the handler
    returns normally, sends no request, removes the slot, clears the user
    and the token, and only then navigates to [/login]; the other slots
    are untouched. Afterwards the route guard does not render protected
    content: it redirects to [/login], or shows the placeholder if the
    session was still loading. *)
Theorem dashboard_logout (w : World) :
  Dashboard.handleLogout logout w =
  (Returned tt,
   mkWorld (mkAuthState None None (AuthContext.isLoading (auth w)))
     (delete "access_token" (localStorage w))
     (clock w)
     (history w ++
      [LsRemoveItem "access_token"; SetUser None; SetToken None;
       Navigate "/login"])) /\
  requests (history (exec (Dashboard.handleLogout logout) w)) =
    requests (history w) /\
  ProtectedRoute.ProtectedRoute
    (auth (exec (Dashboard.handleLogout logout) w)) =
    (if AuthContext.isLoading (auth w)
     then ProtectedRoute.LoadingPlaceholder
     else ProtectedRoute.NavigateTo "/login" true).
Proof.
  assert (H : Dashboard.handleLogout logout w =
    (Returned tt,
     mkWorld (mkAuthState None None (AuthContext.isLoading (auth w)))
       (delete "access_token" (localStorage w))
       (clock w)
       (history w ++
        [LsRemoveItem "access_token"; SetUser None; SetToken None;
         Navigate "/login"]))).
  { cbv [Dashboard.handleLogout Dashboard.navigate]. run_js.
    by rewrite <- !app_assoc. }
  split; [exact H |]. unfold exec. rewrite H. simpl. split.
  - rewrite requests_app. simpl. by rewrite app_nil_r.
  - unfold ProtectedRoute.ProtectedRoute. simpl.
    by destruct (AuthContext.isLoading (auth w)).
Qed.

End PagesOverProvider.

Lemma register_page_sends_iff_valid_witness :
  Lifecycle.requests
    (AuthContext.history
       (Page.world
          (Effect.exec
             (RegisterPage.handleSubmit
                (AuthContext.register Scenario.accepting)
                "alice" "alice@example.com" "secret" "secrex")
             (Page.mkState (Page.mkFormState "" false)
                (AuthContext.mount ∅))))) =
  Lifecycle.requests (AuthContext.history (AuthContext.mount ∅)).
Proof.
  apply (register_page_sends_iff_valid Scenario.accepting).
  left. discriminate.
Defined.

Lemma login_page_rejected_witness :
  Page.error
    (Page.form
       (Effect.exec
          (LoginPage.handleSubmit (AuthContext.login Scenario.rejecting)
             "alice" "wrong")
          (Page.mkState (Page.mkFormState "" false) Scenario.logged_in))) =
  "Incorrect username or password".
Proof.
  exact (proj1 (login_page_rejected Scenario.rejecting
                  (Page.mkState (Page.mkFormState "" false)
                     Scenario.logged_in)
                  "alice" "wrong" Scenario.bad_credentials eq_refl)).
Defined.

Lemma login_page_profile_failure_redirects_witness :
  ProtectedRoute.ProtectedRoute
    (AuthContext.auth
       (Page.world
          (Effect.exec
             (LoginPage.handleSubmit (AuthContext.login Scenario.flaky)
                "alice" "secret")
             (Page.mkState (Page.mkFormState "" false) Scenario.logged_in)))) =
  ProtectedRoute.NavigateTo "/login" true.
Proof.
  exact (proj2 (proj2 (proj2
    (login_page_profile_failure_redirects Scenario.flaky
       (Page.mkState (Page.mkFormState "" false) Scenario.logged_in)
       "alice" "secret" (Types.mkLoginResponse "jwt-2" "bearer")
       Scenario.unauthorized eq_refl eq_refl)))).
Defined.

(** ** Error messages *)

Section ErrorMessages.

Import Types Dynamic ErrorMessage.



(** X19. [getErrorMessage] on an error of the declared type. With a
    response, the result is the [detail] if there is a non-empty one,
    else the [message] if it is non-empty, else [An error occurred].
    Without a response the error does not count as an axios error: an
    instance of [Error] gives its [message], empty or not, and a plain
    object gives [An unknown error occurred], whatever its [message]. *)
Theorem getErrorMessage_typed (is_error : bool) (e : AxiosError) :
  getErrorMessage (of_axios_error is_error e) =
  Str (match response e with
       | Some _ =>
           Js.or_else (response_data_detail e)
             (Js.or_else (Some (message e)) "An error occurred")
       | None =>
           if is_error then message e else "An unknown error occurred"
       end).
Proof.
  destruct e as [[[[[d] |] st] |] m]; destruct is_error;
    cbv [getErrorMessage isAxiosError of_axios_error of_error_body
         response_data_detail response data detail status message];
    simpl; unfold or; simpl;
    try reflexivity;
    try (destruct (Js.truthy d) eqn:Hd; simpl; rewrite ?Hd);
    try reflexivity;
    by destruct (Js.truthy m) eqn:Hm; simpl; rewrite ?Hm.
Qed.


End ErrorMessages.



(** ** The dashboard's token paragraph *)

Section TokenPreview.

Lemma length_append (s1 s2 : string) :
  String.length (s1 +:+ s2) = String.length s1 + String.length s2.
Proof. induction s1 as [| c s1 IH]; simpl; [done | by rewrite IH]. Qed.

Lemma substring_prefix (n : nat) (s : string) :
  exists rest,
    s = String.substring 0 n s +:+ rest /\
    String.length (String.substring 0 n s) = Nat.min n (String.length s).
Proof.
  revert s. induction n as [| n IH]; intros s.
  - exists s. by destruct s.
  - destruct s as [| c s]; simpl.
    + by exists "".
    + destruct (IH s) as (rest & Hs & Hl). exists rest.
      split; [exact (f_equal (String c) Hs) | by rewrite Hl].
Qed.

(** X21. The dashboard shows at most the first fifty characters of the
    token: the paragraph is a prefix of the token of length fifty, or the
    whole token if that is shorter, followed by three dots; and without a
    token it is the three dots alone. *)
Theorem token_preview_bounded (t : string) :
  Dashboard.token_preview None = "..." /\
  String.length (Dashboard.token_preview (Some t)) =
    Nat.min 50 (String.length t) + 3 /\
  exists shown rest,
    t = shown +:+ rest /\
    Dashboard.token_preview (Some t) = shown +:+ "..." /\
    String.length shown = Nat.min 50 (String.length t).
Proof.
  destruct (substring_prefix 50 t) as (rest & Hs & Hl).
  split; [reflexivity | split].
  - unfold Dashboard.token_preview. by rewrite length_append, Hl.
  - by exists (String.substring 0 50 t), rest.
Qed.

End TokenPreview.

(** ** Storage mirrors memory *)

Section Mirror.

Import Types Effect AuthContext Lifecycle Browser.

Variable net : Network.

Lemma login_keeps_mirror (w : World) (username password : string) :
  storage_mirrors_token w ->
  storage_mirrors_token (exec (login net username password) w).
Proof.
  intros Hw. unfold exec.
  destruct (post_login net (clock w) username password) as [e | r] eqn:Hpost.
  - by rewrite (login_rejected_world net w _ _ e Hpost).
  - destruct (get_users_me net (S (clock w)) (bearer (access_token r)))
      as [e | u] eqn:Hget.
    + rewrite (login_issued_rejected net w _ _ r e Hpost Hget).
      left. apply lookup_delete_eq.
    + rewrite (login_issued_accepted net w _ _ r u Hpost Hget).
      left. apply lookup_insert_eq.
Qed.

Lemma initialize_mirrors (persisted : gmap string string) :
  storage_mirrors_token (exec (initialize net) (mount persisted)).
Proof.
  unfold exec.
  destruct (persisted !! "access_token") as [t |] eqn:Hls.
  - destruct (decide (t = "")) as [-> | Hne].
    + rewrite (initialize_empty net persisted Hls). by right.
    + destruct (get_users_me net 0 (bearer t)) as [e | u] eqn:Hget.
      * rewrite (initialize_rejected net persisted t e Hls Hne Hget).
        left. apply lookup_delete_eq.
      * rewrite (initialize_accepted net persisted t u Hls Hne Hget).
        by left.
  - rewrite (initialize_absent net persisted Hls). by left.
Qed.

(** X22. Between two operations persistent storage mirrors the session:
    the slot [access_token] holds exactly the token that is in memory and
    is absent when there is none. The one exception is an empty string
    that the mount effect found in the slot: it is left there, with
    nobody logged in, until the next login or logout. *)
Theorem reachable_storage_mirrors_token (w : World) :
  reachable net w ->
  localStorage w !! "access_token" = token (auth w) \/
  (token (auth w) = None /\ localStorage w !! "access_token" = Some "").
Proof.
  induction 1 as [persisted | w op Hr IH Hop].
  - apply initialize_mirrors.
  - destruct op as [| t | un pw | un em pw |]; try discriminate Hop; simpl.
    + by apply login_keeps_mirror.
    + unfold exec.
      destruct (post_register net (clock w) un em pw) as [e | r] eqn:Hreg.
      * by rewrite (register_rejected net w _ _ _ e Hreg).
      * rewrite (register_accepted net w _ _ _ r Hreg).
        by apply login_keeps_mirror.
    + left. apply lookup_delete_eq.
Qed.

End Mirror.

Lemma reachable_storage_mirrors_token_witness :
  AuthContext.localStorage Scenario.logged_in !! "access_token" =
    AuthContext.token (AuthContext.auth Scenario.logged_in) \/
  (AuthContext.token (AuthContext.auth Scenario.logged_in) = None /\
   AuthContext.localStorage Scenario.logged_in !! "access_token" = Some "").
Proof.
  apply (reachable_storage_mirrors_token Scenario.flaky).
  apply (Lifecycle.reach_call Scenario.flaky _
           (Lifecycle.Login "alice" "secret")); [| reflexivity].
  apply Lifecycle.reach_initialize.
Defined.
